(** * FlightScheduler: a shallow embedding of [flightscheduler.py]

    The plugin is one [commands.Cog] with a periodic task ([update_webhook])
    and three commands ([flight create], [flight start], [flight cancel]).

    Layout of this development:
    - [Str]       Python [str] operations the plugin uses;
    - [Float64]   binary64 division, as [timedelta.total_seconds() / 60] needs;
    - [Datetime]  [datetime] / [timedelta] values, [fromisoformat], [isoformat];
    - [Python]    what the versions of Python differ in;
    - [Regex]     the fragment of [re] the extraction pattern is written in;
    - values, instance dictionaries and the constructor;
    - [Effects]   awaited calls and the program monad;
    - [Cog]       the task and the commands of the class;
    - [Observe], [Samples], [May], [History] and the vocabulary of the
      specification;
    - the properties, one section per component, and the scenarios.

    Conventions.  A Python [str] is a [string]; its characters are the code
    points below 256.  An [int] is a [Z].  The instance dictionary of the cog
    is a [gmap string value].  Every awaited call is an event of the program
    monad and its answer is chosen by the environment. *)

From Stdlib Require Import ZArith List String Ascii Lia Bool DecimalString.
From Stdlib Require Import Sorted Permutation.
From stdpp Require Import gmap strings.
Import ListNotations.

Local Open Scope string_scope.
Local Open Scope Z_scope.

(** ** Python strings *)

Module Str.

Definition code (c : ascii) : Z := Z.of_N (N_of_ascii c).

(** [str.isspace] on one character, which is also the class [\s] of [re]
    for [str] patterns: TAB..CR, FS..US, space, NEL and NBSP. *)
Definition isspace (c : ascii) : bool :=
  let n := code c in
  ((9 <=? n) && (n <=? 13)) || ((28 <=? n) && (n <=? 32))
  || (n =? 133) || (n =? 160).

(** The class [\d]: below 256 the only decimal digits are "0".."9". *)
Definition isdigit (c : ascii) : bool :=
  let n := code c in (48 <=? n) && (n <=? 57).

Definition digit_val (c : ascii) : Z := code c - 48.

(** Strip every leading character satisfying [p]. *)
Fixpoint lstrip_by (p : ascii -> bool) (s : string) : string :=
  match s with
  | EmptyString => EmptyString
  | String c s' => if p c then lstrip_by p s' else s
  end.

(** Strip every trailing character satisfying [p]. *)
Fixpoint rstrip_by (p : ascii -> bool) (s : string) : string :=
  match s with
  | EmptyString => EmptyString
  | String c s' =>
      match rstrip_by p s' with
      | EmptyString => if p c then EmptyString else String c EmptyString
      | r => String c r
      end
  end.

(** [s.strip()] *)
Definition strip (s : string) : string := rstrip_by isspace (lstrip_by isspace s).

(** [s.rstrip(chars)] for a one-character [chars]. *)
Definition rstrip_char (ch : ascii) (s : string) : string :=
  rstrip_by (Ascii.eqb ch) s.

(** [s.split(sep)] for a one-character separator: never empty. *)
Fixpoint split (sep : ascii) (s : string) : list string :=
  match s with
  | EmptyString => [EmptyString]
  | String c s' =>
      if Ascii.eqb c sep then EmptyString :: split sep s'
      else match split sep s' with
           | h :: t => String c h :: t
           | [] => [String c EmptyString]
           end
  end.

(** [xs[-1]] on the result of [split]. *)
Definition last_item (xs : list string) : string := List.last xs EmptyString.

(** [s[:-1]]: everything but the last character; [""] stays [""]. *)
Fixpoint drop_last (s : string) : string :=
  match s with
  | EmptyString => EmptyString
  | String c EmptyString => EmptyString
  | String c s' => String c (drop_last s')
  end.

(** [s.replace(old, new)] for a one-character [old]. *)
Fixpoint replace_char (old : ascii) (new : string) (s : string) : string :=
  match s with
  | EmptyString => EmptyString
  | String c s' =>
      if Ascii.eqb c old then new +:+ replace_char old new s'
      else String c (replace_char old new s')
  end.

(** [str.lower] on one character: A..Z and the Latin-1 capitals
    (all of 0xC0..0xDE but the multiplication sign 0xD7) move up by 32. *)
Definition lower_char (c : ascii) : ascii :=
  let n := code c in
  if ((65 <=? n) && (n <=? 90))
     || ((192 <=? n) && (n <=? 222) && negb (n =? 215))
  then ascii_of_N (Z.to_N (n + 32)) else c.

Fixpoint lower (s : string) : string :=
  match s with
  | EmptyString => EmptyString
  | String c s' => String (lower_char c) (lower s')
  end.

(** Decimal digits with single underscores between them, as [int] reads
    them.  [prev] tells whether the previous character was a digit. *)
Fixpoint digits (s : string) (acc : Z) (prev : bool) : option Z :=
  match s with
  | EmptyString => if prev then Some acc else None
  | String c s' =>
      if isdigit c then digits s' (10 * acc + digit_val c) true
      else if Ascii.eqb c "_" && prev then digits s' acc false
      else None
  end.

(** The white space [int] skips at both ends of its argument: TAB..CR and
    the space, and the two spaces above 127, NEL and NBSP, which [int] first
    turns into spaces.  The separators FS..US are white space for
    [str.isspace] but not for [int]. *)
Definition int_space (c : ascii) : bool :=
  let n := code c in
  ((9 <=? n) && (n <=? 13)) || (n =? 32) || (n =? 133) || (n =? 160).

(** [int(s)] in base 10: surrounding whitespace, an optional sign, digits.
    [None] is [ValueError].  (The limit of 4300 digits of CPython 3.11 is
    out of reach: the argument is the content of a chat message, at most
    4000 characters.) *)
Definition int (s : string) : option Z :=
  match rstrip_by int_space (lstrip_by int_space s) with
  | String "+" r => digits r 0 false
  | String "-" r => option_map Z.opp (digits r 0 false)
  | t => digits t 0 false
  end.

(** [str(n)] for an [int]. *)
Definition of_Z (n : Z) : string := NilZero.string_of_int (Z.to_int n).

(** [a < b] and [a <= b] on [str]: lexicographic on code points. *)
Definition ltb (a b : string) : bool := String.ltb a b.
Definition leb (a b : string) : bool := String.leb a b.

(** [x in s] for a substring [x]. *)
Fixpoint prefix (p s : string) : bool :=
  match p, s with
  | EmptyString, _ => true
  | String a p', String b s' => Ascii.eqb a b && prefix p' s'
  | String _ _, EmptyString => false
  end.

Fixpoint contains (x s : string) : bool :=
  prefix x s || match s with
                | EmptyString => false
                | String _ s' => contains x s'
                end.

(** [repr(s)]: the text between quotes, with the quote, the backslash and
    the characters that do not print escaped.  Double quotes are used when
    the text holds a single quote and no double quote. *)
Definition hex_digit (n : Z) : ascii :=
  ascii_of_N (Z.to_N (if n <? 10 then 48 + n else 87 + n)).

Definition printable (c : ascii) : bool :=
  let n := code c in
  ((32 <=? n) && (n <=? 126)) || ((161 <=? n) && negb (n =? 173)).

Fixpoint escape (quote : ascii) (s : string) : string :=
  match s with
  | EmptyString => EmptyString
  | String c s' =>
      let n := code c in
      (if Ascii.eqb c quote || Ascii.eqb c "\" then String "\" (String c EmptyString)
       else if n =? 9 then "\t"
       else if n =? 10 then "\n"
       else if n =? 13 then "\r"
       else if printable c then String c EmptyString
       else String "\" (String "x" (String (hex_digit (n / 16))
                                     (String (hex_digit (n mod 16)) EmptyString))))
      +:+ escape quote s'
  end.

Definition repr (s : string) : string :=
  let quote := if contains "'" s && negb (contains (String "034" EmptyString) s)
               then "034"%char else "'"%char in
  String quote (escape quote s) +:+ String quote EmptyString.

End Str.

(** ** Exceptions

    The exception classes the plugin can meet.  [CancelledError] derives from
    [BaseException]; every other class here derives from [Exception].
    [NotFound], [Forbidden] and [DiscordServerError] derive from
    [discord.HTTPException]. *)

Inductive exn : Type :=
| AttributeError (obj_class attr : string)
| ValueError (msg : string)
| TypeError (msg : string)
| OverflowError (msg : string)
| CancelledError
| TimeoutError
| HTTPException (status : Z)
| NotFound
| Forbidden
| DiscordServerError
| OSError (msg : string)
| RuntimeError (msg : string).

(** [isinstance(e, Exception)] *)
Definition is_Exception (e : exn) : bool :=
  match e with
  | CancelledError => false
  | _ => true
  end.

(** [isinstance(e, discord.HTTPException)] *)
Definition is_HTTPException (e : exn) : bool :=
  match e with
  | HTTPException _ | NotFound | Forbidden | DiscordServerError => true
  | _ => false
  end.

(** [str(e)] *)
Definition exn_str (e : exn) : string :=
  match e with
  | AttributeError c a => "'" +:+ c +:+ "' object has no attribute '" +:+ a +:+ "'"
  | ValueError m | TypeError m | OverflowError m | OSError m | RuntimeError m => m
  | CancelledError | TimeoutError => ""
  | HTTPException st => Str.of_Z st
  | NotFound => "404 Not Found"
  | Forbidden => "403 Forbidden"
  | DiscordServerError => "500 Internal Server Error"
  end.

(** The result of an operation that may raise. *)
Inductive outcome (A : Type) : Type :=
| Ok (a : A)
| Exc (e : exn).
Arguments Ok {A} a.
Arguments Exc {A} e.

(** ** Binary64 arithmetic

    [timedelta.total_seconds()] divides two integers and [... / 60] divides a
    float by an integer; both round the exact quotient to the nearest binary64
    number, ties to even.  A finite float is kept as mantissa and exponent.
    The exponent range of binary64 is not modelled: every quotient formed by
    the plugin is a number of seconds or minutes between two dates of the
    years 1..9999, or zero, far from overflow and from the subnormals. *)

Module Float64.

Record f64 : Type := F64 { fm : Z; fe : Z }.   (* the number fm * 2^fe *)

(** [n / d] is [a / (b * 2^e)] with integers only. *)
Definition scaled (a b e : Z) : Z * Z :=
  if 0 <=? e then (a, b * 2 ^ e) else (a * 2 ^ (- e), b).

(** The exponent that leaves 53 bits in the integer part of the quotient. *)
Definition exponent (a b : Z) : Z :=
  let e := Z.log2 a - Z.log2 b - 53 in
  let '(n, d) := scaled a b e in
  if n / d <? 2 ^ 53 then e else e + 1.

Definition round_half_even (n d : Z) : Z :=
  let q := n / d in
  let r := n mod d in
  if 2 * r <? d then q
  else if d <? 2 * r then q + 1
  else if Z.even q then q else q + 1.

Definition div_pos (a b : Z) : f64 :=
  let e := exponent a b in
  let '(n, d) := scaled a b e in
  F64 (round_half_even n d) e.

(** The float nearest to [a / b], for [0 < b]. *)
Definition rn_div (a b : Z) : f64 :=
  if a =? 0 then F64 0 0
  else if 0 <? a then div_pos a b
  else let x := div_pos (- a) b in F64 (- fm x) (fe x).

(** [x / k] for a float [x] and an [int] [k > 0]. *)
Definition div_int (x : f64) (k : Z) : f64 :=
  if 0 <=? fe x then rn_div (fm x * 2 ^ fe x) k
  else rn_div (fm x) (k * 2 ^ (- fe x)).

(** [int(x)]: truncation towards zero. *)
Definition trunc (x : f64) : Z :=
  if 0 <=? fe x then fm x * 2 ^ fe x else Z.quot (fm x) (2 ^ (- fe x)).

(** [x <= 0] *)
Definition le0 (x : f64) : bool := fm x <=? 0.

(** [x == n] for an [int] [n]. *)
Definition eq_int (x : f64) (n : Z) : bool :=
  if 0 <=? fe x then fm x * 2 ^ fe x =? n else fm x =? n * 2 ^ (- fe x).

End Float64.

(** ** Dates and times *)

Module Datetime.

Definition us_per_second : Z := 1000000.
Definition us_per_minute : Z := 60 * us_per_second.
Definition us_per_day : Z := 86400 * us_per_second.

(** [timedelta]: a whole number of microseconds. *)
Definition timedelta : Type := Z.
Definition minutes (n : Z) : timedelta := n * us_per_minute.

(** [td.total_seconds()] *)
Definition total_seconds (td : timedelta) : Float64.f64 :=
  Float64.rn_div td us_per_second.

(** A [datetime]: the wall-clock reading in microseconds since
    0001-01-01T00:00:00, and the UTC offset when the value is aware. *)
Record datetime : Type := DT { wall : Z; tz : option Z }.

Definition naive (w : Z) : datetime := DT w None.
Definition aware_utc (w : Z) : datetime := DT w (Some 0).

(** The proleptic Gregorian calendar. *)
Definition is_leap (y : Z) : bool :=
  (y mod 4 =? 0) && (negb (y mod 100 =? 0) || (y mod 400 =? 0)).

Definition days_before_year (y : Z) : Z :=
  let p := y - 1 in p * 365 + p / 4 - p / 100 + p / 400.

Definition days_in_month_table (m : Z) : Z :=
  nth (Z.to_nat m) [0; 31; 28; 31; 30; 31; 30; 31; 31; 30; 31; 30; 31] 0.

Definition days_in_month (y m : Z) : Z :=
  if (m =? 2) && is_leap y then 29 else days_in_month_table m.

Definition days_before_month_table (m : Z) : Z :=
  nth (Z.to_nat m) [0; 0; 31; 59; 90; 120; 151; 181; 212; 243; 273; 304; 334] 0.

Definition days_before_month (y m : Z) : Z :=
  days_before_month_table m + (if (2 <? m) && is_leap y then 1 else 0).

(** Day number of a date, 0001-01-01 being day 1. *)
Definition ymd2ord (y m d : Z) : Z :=
  days_before_year y + days_before_month y m + d.

(** Month and day of the day [n] of a year, counted from 0. *)
Definition month_day (leapyear : bool) (n : Z) : Z * Z :=
  let month := Z.shiftr (n + 50) 5 in
  let preceding :=
    days_before_month_table month + (if (2 <? month) && leapyear then 1 else 0) in
  if n <? preceding then
    (* the estimate is one month too large *)
    let month := month - 1 in
    let preceding :=
      preceding
      - (days_in_month_table month + (if (month =? 2) && leapyear then 1 else 0)) in
    (month, n - preceding + 1)
  else (month, n - preceding + 1).

(** The date of a day number: 400-year, 100-year, 4-year cycles, then
    single years, then the day of the year. *)
Definition ord2ymd (n : Z) : Z * Z * Z :=
  let n := n - 1 in
  let n400 := n / 146097 in
  let n := n mod 146097 in
  let n100 := n / 36524 in
  let n := n mod 36524 in
  let n4 := n / 1461 in
  let n := n mod 1461 in
  let n1 := n / 365 in
  let n := n mod 365 in
  let year := n400 * 400 + 1 + n100 * 100 + n4 * 4 + n1 in
  if (n1 =? 4) || (n100 =? 4) then (year - 1, 12, 31)
  else
    let leapyear := (n1 =? 3) && (negb (n4 =? 24) || (n100 =? 3)) in
    let '(month, day) := month_day leapyear n in
    (year, month, day).

Definition max_wall : Z := 3652059 * us_per_day.   (* end of 9999-12-31 *)
Definition in_range (w : Z) : bool := (0 <=? w) && (w <? max_wall).

Definition valid_date (y m d : Z) : bool :=
  (1 <=? y) && (y <=? 9999) && (1 <=? m) && (m <=? 12)
  && (1 <=? d) && (d <=? days_in_month y m).

Definition valid_time (hh mm ss : Z) : bool :=
  (hh <? 24) && (mm <? 60) && (ss <? 60).

Definition wall_of (y m d hh mm ss us : Z) : Z :=
  (((ymd2ord y m d - 1) * 86400 + hh * 3600 + mm * 60 + ss) * us_per_second) + us.

(** *** Reading ISO 8601 text

    [datetime.fromisoformat] on the texts [isoformat] writes:
<<
    YYYY-MM-DD [ sep HH [ :MM [ :SS [ .fff [ fff ] ] ] ] [ (+|-)HH:MM ] ]
>>
    where [sep] is any one character.  This is the grammar of Python 3.7
    to 3.10 without seconds in the UTC offset; every version from 3.7 on
    reads a text of this grammar with the result given here.  [None] is a
    text outside the grammar: what becomes of it depends on the version of
    Python, see [Python] below. *)

Fixpoint read_digits (n : nat) (s : string) (acc : Z) : option (Z * string) :=
  match n with
  | O => Some (acc, s)
  | S n' =>
      match s with
      | String c s' =>
          if Str.isdigit c then read_digits n' s' (10 * acc + Str.digit_val c)
          else None
      | EmptyString => None
      end
  end.

Definition read_char (ch : ascii) (s : string) : option string :=
  match s with
  | String c s' => if Ascii.eqb c ch then Some s' else None
  | EmptyString => None
  end.

Definition parse_date (s : string) : option (Z * Z * Z * string) :=
  '(y, s) ← read_digits 4 s 0;
  s ← read_char "-" s;
  '(m, s) ← read_digits 2 s 0;
  s ← read_char "-" s;
  '(d, s) ← read_digits 2 s 0;
  Some (y, m, d, s).

Definition parse_fraction (s : string) : option (Z * string) :=
  '(f3, s) ← read_digits 3 s 0;
  match read_digits 3 s 0 with
  | Some (f6, s') => Some (f3 * 1000 + f6, s')
  | None => Some (f3 * 1000, s)
  end.

Definition parse_time (s : string) : option (Z * Z * Z * Z * string) :=
  '(hh, s) ← read_digits 2 s 0;
  match read_char ":" s with
  | None => Some (hh, 0, 0, 0, s)
  | Some s =>
      '(mm, s) ← read_digits 2 s 0;
      match read_char ":" s with
      | None => Some (hh, mm, 0, 0, s)
      | Some s =>
          '(ss, s) ← read_digits 2 s 0;
          match read_char "." s with
          | None => Some (hh, mm, ss, 0, s)
          | Some s => '(us, s) ← parse_fraction s; Some (hh, mm, ss, us, s)
          end
      end
  end.

Definition parse_offset (s : string) : option Z :=
  '(hh, s) ← read_digits 2 s 0;
  s ← read_char ":" s;
  '(mm, s) ← read_digits 2 s 0;
  match s with
  | EmptyString =>
      if (hh <? 24) && (mm <? 60)
      then Some ((hh * 60 + mm) * us_per_minute) else None
  | _ => None
  end.

Definition parse_tz (s : string) : option (option Z) :=
  match s with
  | EmptyString => Some None
  | String "+" r => off ← parse_offset r; Some (Some off)
  | String "-" r => off ← parse_offset r; Some (Some (- off))
  | _ => None
  end.

Definition build (y m d hh mm ss us : Z) (tzo : option Z) : option datetime :=
  if valid_date y m d && valid_time hh mm ss
  then Some (DT (wall_of y m d hh mm ss us) tzo) else None.

Definition fromisoformat (s : string) : option datetime :=
  '(y, m, d, s) ← parse_date s;
  match s with
  | EmptyString => build y m d 0 0 0 0 None
  | String _ s =>
      '(hh, mm, ss, us, s) ← parse_time s;
      tzo ← parse_tz s;
      build y m d hh mm ss us tzo
  end.

(** *** Writing ISO 8601 text *)

Fixpoint zeros (n : nat) : string :=
  match n with
  | O => EmptyString
  | S n' => String "0" (zeros n')
  end.

(** [n] in decimal, zero-padded on the left to [w] characters. *)
Definition pad (w : nat) (n : Z) : string :=
  let s := Str.of_Z n in zeros (w - String.length s) +:+ s.

Definition format_offset (off : Z) : string :=
  let sign := if off <? 0 then "-" else "+" in
  let a := Z.abs off / us_per_second in
  let hh := a / 3600 in
  let mm := (a mod 3600) / 60 in
  let ss := a mod 60 in
  sign +:+ pad 2 hh +:+ ":" +:+ pad 2 mm
  +:+ (if ss =? 0 then EmptyString else ":" +:+ pad 2 ss).

(** [dt.isoformat()] *)
Definition isoformat (dt : datetime) : string :=
  let days := wall dt / us_per_day in
  let rest := wall dt mod us_per_day in
  let '(y, m, d) := ord2ymd (days + 1) in
  let secs := rest / us_per_second in
  let us := rest mod us_per_second in
  pad 4 y +:+ "-" +:+ pad 2 m +:+ "-" +:+ pad 2 d +:+ "T"
  +:+ pad 2 (secs / 3600) +:+ ":" +:+ pad 2 ((secs mod 3600) / 60)
  +:+ ":" +:+ pad 2 (secs mod 60)
  +:+ (if us =? 0 then EmptyString else "." +:+ pad 6 us)
  +:+ match tz dt with
      | None => EmptyString
      | Some off => format_offset off
      end.

(** *** Arithmetic and comparison *)

(** 1970-01-01 is day 719163. *)
Definition epoch_wall : Z := 719162 * us_per_day.

(** A year as the C [int] CPython keeps it in. *)
Definition wrap32 (y : Z) : Z := (y + 2 ^ 31) mod 2 ^ 32 - 2 ^ 31.

(** [datetime.utcfromtimestamp(t)] for an [int] [t]: a naive value.
    Outside the years 1..9999 it raises, as CPython does on 64-bit Linux:
    [OverflowError] when [t] does not fit the 64 bits of [time_t], [OSError]
    when [gmtime] cannot hold the year (counted from 1900) in an [int], and
    [ValueError] naming the year otherwise. *)
Definition utcfromtimestamp (t : Z) : outcome datetime :=
  let w := epoch_wall + t * us_per_second in
  if in_range w then Ok (naive w)
  else if negb ((- 2 ^ 63 <=? t) && (t <? 2 ^ 63)) then
    Exc (OverflowError "timestamp out of range for platform time_t")
  else
    let year := fst (fst (ord2ymd (719163 + t / 86400))) in
    if negb ((- 2 ^ 31 <=? year - 1900) && (year - 1900 <? 2 ^ 31)) then
      Exc (OSError "[Errno 75] Value too large for defined data type")
    else
      Exc (ValueError ("year " +:+ Str.of_Z (wrap32 year) +:+ " is out of range")).

(** [dt + td] *)
Definition add (dt : datetime) (td : timedelta) : outcome datetime :=
  let w := wall dt + td in
  if in_range w then Ok (DT w (tz dt))
  else Exc (OverflowError "date value out of range").

(** [a - b] on two datetimes. *)
Definition sub (a b : datetime) : outcome timedelta :=
  match tz a, tz b with
  | None, None => Ok (wall a - wall b)
  | Some oa, Some ob => Ok ((wall a - oa) - (wall b - ob))
  | _, _ => Exc (TypeError "can't subtract offset-naive and offset-aware datetimes")
  end.

(** [a > b] on two datetimes. *)
Definition gt (a b : datetime) : outcome bool :=
  match tz a, tz b with
  | None, None => Ok (wall b <? wall a)
  | Some oa, Some ob => Ok (wall b - ob <? wall a - oa)
  | _, _ => Exc (TypeError "can't compare offset-naive and offset-aware datetimes")
  end.

(** *** Digits, for the proofs about the two conversions *)

(** The character of the decimal digit [d]. *)
Definition digit_char (d : Z) : ascii := ascii_of_nat (48 + Z.to_nat d).

Definition digits2 (v : Z) : string :=
  String (digit_char (v / 10)) (String (digit_char (v mod 10)) EmptyString).

Definition digits4 (v : Z) : string :=
  String (digit_char (v / 1000)) (String (digit_char (v / 100 mod 10)) (digits2 (v mod 100))).

(** [f] holds of [v], [v + 1], ..., [v + fuel - 1]. *)
Fixpoint all_from (fuel : nat) (v : Z) (f : Z -> bool) : bool :=
  match fuel with
  | O => true
  | S k => f v && all_from k (v + 1) f
  end.

(** [month_day] gives a month, a day of that month, and the right day of
    the year. *)
Definition month_day_ok (leap : bool) (n : Z) : bool :=
  let '(m, d) := month_day leap n in
  (1 <=? m) && (m <=? 12) && (1 <=? d)
  && (d <=? days_in_month_table m + (if (m =? 2) && leap then 1 else 0))
  && (days_before_month_table m + (if (2 <? m) && leap then 1 else 0) + d =? n + 1).

End Datetime.

(** ** The version of Python

    [datetime.fromisoformat] reads more texts in later versions of Python:
    from 3.11 on a fraction of any length, a trailing "Z", dates without
    dashes.  [later_iso s] is what the running Python makes of a text [s]
    outside the grammar of [Datetime.fromisoformat], [None] when it raises
    [ValueError]. *)

Class Python : Type := { later_iso : string -> option Datetime.datetime }.

(** [datetime.fromisoformat(s)] on the running Python. *)
Definition read_iso `{Python} (s : string) : option Datetime.datetime :=
  match Datetime.fromisoformat s with
  | Some d => Some d
  | None => later_iso s
  end.

(** ** Regular expressions

    The fragment of [re] the extraction pattern is written in: a sequence of
    literals, greedy one-or-more loops over a character class, and capturing
    groups holding a lazy one-or-more loop.  The matcher backtracks in the
    order [re] does: a greedy loop tries the longest run first, a lazy loop
    the shortest, and the first complete match wins. *)

Module Regex.

Inductive cls : Type :=
| Digit      (* \d *)
| Space      (* \s *)
| AnyChar.   (* .  under re.DOTALL *)

Definition cls_match (c : cls) (ch : ascii) : bool :=
  match c with
  | Digit => Str.isdigit ch
  | Space => Str.isspace ch
  | AnyChar => true
  end.

Inductive tok : Type :=
| Lit (s : string)        (* the characters of s, escaped where needed *)
| Plus (c : cls)          (* c+ *)
| GroupLazy (c : cls).    (* (c+?) *)

Definition regex : Type := list tok.

(** The rest of [s] after the literal [p], when [s] starts with it. *)
Fixpoint lit (p s : string) : option string :=
  match p, s with
  | EmptyString, _ => Some s
  | String a p', String b s' => if Ascii.eqb a b then lit p' s' else None
  | String _ _, EmptyString => None
  end.

(** [c+] followed by the continuation [k]. *)
Fixpoint greedy (c : cls) (k : string -> option (list string)) (s : string)
  : option (list string) :=
  match s with
  | EmptyString => None
  | String ch s' =>
      if cls_match c ch then
        match greedy c k s' with
        | Some g => Some g
        | None => k s'
        end
      else None
  end.

(** [(c+?)] followed by [k]; [acc] is what the group holds so far. *)
Fixpoint lazy (c : cls) (k : string -> option (list string)) (acc s : string)
  : option (list string) :=
  match s with
  | EmptyString => None
  | String ch s' =>
      if cls_match c ch then
        let acc' := acc +:+ String ch EmptyString in
        match k s' with
        | Some g => Some (acc' :: g)
        | None => lazy c k acc' s'
        end
      else None
  end.

(** The longest run of characters of class [c] at the start of [s], and
    the rest of [s]. *)
Fixpoint span (c : cls) (s : string) : string * string :=
  match s with
  | EmptyString => (EmptyString, EmptyString)
  | String ch s' =>
      if cls_match c ch
      then let '(run, rest) := span c s' in (String ch run, rest)
      else (EmptyString, s)
  end.

(** A match of [r] starting at the beginning of [s]: its groups. *)
Fixpoint match_here (r : regex) (s : string) {struct r} : option (list string) :=
  match r with
  | [] => Some []
  | Lit p :: r' =>
      match lit p s with
      | Some s' => match_here r' s'
      | None => None
      end
  | Plus c :: r' => greedy c (match_here r') s
  | GroupLazy c :: r' => lazy c (match_here r') EmptyString s
  end.

(** [re.search(r, s, re.DOTALL)]: the leftmost match; [m.groups()]. *)
Fixpoint search (r : regex) (s : string) : option (list string) :=
  match match_here r s with
  | Some g => Some g
  | None =>
      match s with
      | EmptyString => None
      | String _ s' => search r s'
      end
  end.

End Regex.

(** ** Values, objects and the constructor *)

(** The values an attribute of the cog can hold. *)
Inductive value : Type :=
| VNone
| VStr (s : string)
| VInt (n : Z)
| VBot                      (* the running ModmailBot *)
| VMethod (name : string).  (* a function or task defined in the class body *)

(** [str(v)], as an f-string formats it. *)
Definition value_str (v : value) : string :=
  match v with
  | VNone => "None"
  | VStr s => s
  | VInt n => Str.of_Z n
  | VBot => "<bot.ModmailBot object>"
  | VMethod n => "<bound method FlightScheduler." +:+ n +:+ ">"
  end.

(** [a == b]: a [str] never equals an [int]. *)
Definition value_eqb (a b : value) : bool :=
  match a, b with
  | VNone, VNone => true
  | VStr x, VStr y => String.eqb x y
  | VInt x, VInt y => x =? y
  | VBot, VBot => true
  | VMethod x, VMethod y => String.eqb x y
  | _, _ => false
  end.

(** The names bound in the class body. *)
Definition class_attrs : list string :=
  ["__init__"; "cog_unload"; "update_webhook"; "ask"; "flight";
   "flight_create"; "flight_start"; "flight_cancel"].

(** [self.name]: the instance dictionary first, then the class. *)
Definition getattr (self : gmap string value) (name : string) : outcome value :=
  match self !! name with
  | Some v => Ok v
  | None =>
      if existsb (String.eqb name) class_attrs then Ok (VMethod name)
      else Exc (AttributeError "FlightScheduler" name)
  end.

(** The statements of a function body that bind a name. *)
Inductive target : Type :=
| SelfAttr (name : string)    (* self.name = ... *)
| LocalVar (name : string).   (* name = ... *)

(** State of a running constructor: the instance dictionary and the frame of
    local variables, which is dropped when the constructor returns. *)
Record frame : Type := Frame { instance : gmap string value; locals : gmap string value }.

Definition assign (fr : frame) (st : target * value) : frame :=
  match st with
  | (SelfAttr n, v) => Frame (<[n := v]> (instance fr)) (locals fr)
  | (LocalVar n, v) => Frame (instance fr) (<[n := v]> (locals fr))
  end.

(** The assignments of [FlightScheduler.__init__], in order.  [token] is
    [bot.config.get("TOKEN")]. *)
Definition init_body (token : value) : list (target * value) :=
  [ (SelfAttr "bot", VBot);
    (SelfAttr "TOKEN", token);
    (LocalVar "GUILD_ID", VStr "1288926604415733854");
    (LocalVar "REQUIRED_ROLE_ID", VStr "1288926707285495941");
    (LocalVar "ANNOUNCEMENT_CHANNEL_ID", VStr "1290777608782483640");
    (LocalVar "WEBHOOK_URL",
      VStr "https://discord.com/api/webhooks/1290778044948283483/bquY_ka1ndRd7OL7tpZYJUuw5RVQTch0fe_3ddG-uPYTnXOvOZVGZTeY3c9BYAlkuPBD");
    (LocalVar "WEBHOOK_MESSAGE_ID", VStr "1290778370749104263");
    (LocalVar "LOGGING_CHANNEL_ID", VStr "1288927464080543806") ].

Definition init_frame (token : value) : frame :=
  fold_left assign (init_body token) (Frame ∅ ∅).

(** The object [FlightScheduler(bot)] evaluates to.  (The constructor ends by
    starting the [update_webhook] loop, which binds nothing.) *)
Definition __init__ (token : value) : gmap string value :=
  instance (init_frame token).

(** The configuration names the task and the commands read from [self]. *)
Definition config_names : list string :=
  ["GUILD_ID"; "REQUIRED_ROLE_ID"; "ANNOUNCEMENT_CHANNEL_ID";
   "WEBHOOK_URL"; "WEBHOOK_MESSAGE_ID"; "LOGGING_CHANNEL_ID"].

(** ** Awaited calls and the program monad

    Each call a coroutine makes into the outside world (the REST API, the
    gateway cache, the clock, the log, the event loop) is an event.  Opening
    and closing an [aiohttp.ClientSession] and releasing a response make no
    event of their own; the [tasks.loop] machinery that invokes
    [update_webhook] every five minutes belongs to the framework. *)

Module Effects.

(** A key of a JSON object: absent, present and holding [null], or present
    and holding a value. *)
Inductive field (A : Type) : Type :=
| Absent
| Null
| Given (a : A).
Arguments Absent {A}.
Arguments Null {A}.
Arguments Given {A} a.

(** A scheduled event as the REST API returns it, reduced to the keys the
    plugin reads.  [name] and [scheduled_start_time] are required keys of the
    API object and hold strings.  [description] holds a string or [null], or
    is absent; [entity_metadata] holds [null] or an object, of which the
    plugin reads the key [location]. *)
Record ScheduledEvent : Type := {
  ev_name : string;
  ev_description : field string;
  ev_scheduled_start_time : string;
  ev_entity_metadata : field (field string)   (* the key "location" of the object *)
}.

(** [discord.Embed] *)
Record Embed : Type := {
  title : string;
  description : option string;
  color : option Z;
  fields : list (string * string)
}.

(** The embed dictionary patched into the webhook message.  The value of a
    field is a string or [None], which the request carries as [null]. *)
Record EmbedDict : Type := {
  d_title : string;
  d_description : option string;
  d_fields : option (list (string * option string));   (* name, value *)
  d_color : Z;
  d_footer : string
}.

(** The body of the request that creates a scheduled event. *)
Record Payload : Type := {
  p_name : string;
  p_description : string;
  p_scheduled_start_time : string;
  p_scheduled_end_time : string;
  p_privacy_level : Z;
  p_entity_type : Z;
  p_location : string
}.

Inductive content : Type :=
| Text (s : string)
| Rich (e : Embed).

Definition channel : Type := Z.
Definition message : Type := Z.

(** What the closure [send_checkin_closed] captures. *)
Record Closure : Type := {
  c_lock_time : Datetime.datetime;
  c_msg : message;
  c_chan : channel;
  c_departure : string;
  c_flight_number : string;
  c_arrival : string
}.

(** The invocation context of a command. *)
Record Context : Type := {
  author : string;          (* str(ctx.author) *)
  author_roles : list Z     (* r.id for r in ctx.author.roles *)
}.

Definition headers : Type := list (string * string).

(** The calls into the outside world, indexed by what they answer.  A call
    that can fail answers with an [outcome].  Clock readings are in
    microseconds since 0001-01-01T00:00:00 UTC. *)
Inductive io : Type -> Type :=
| HttpGet (url : string) (h : headers) : io (outcome Z)           (* status *)
| JsonEvents : io (outcome (list ScheduledEvent))                 (* resp.json() *)
| JsonEvent : io (outcome ScheduledEvent)                         (* r.json() *)
| HttpPatch (url : string) (embeds : list EmbedDict) (h : headers) : io (outcome Z)
| HttpPost (url : string) (json : Payload) (h : headers) : io (outcome Z)
| HttpDelete (url : string) (h : headers) : io (outcome Z)
| LogWarning (msg : string) : io unit
| UtcNow : io Z                                                   (* datetime.utcnow() *)
| NowUtc : io Z                                                   (* datetime.now(timezone.utc) *)
| GetChannel (id : value) : io (option channel)
| ChannelSend (c : channel) (m : content) : io (outcome message)
| MessageDelete (m : message) : io (outcome unit)
| CtxSend (m : content) : io (outcome unit)
| CtxReply (m : content) : io (outcome unit)
| WaitForMessage (timeout : Z) : io (outcome string)              (* msg.content *)
| Sleep (delay : Float64.f64) : io (outcome unit)
| CreateTask (c : Closure) : io unit.

(** A coroutine body: it returns, raises, or makes a call and goes on with
    the answer. *)
Inductive prog (A : Type) : Type :=
| Ret (a : A)
| Raise (e : exn)
| Vis (X : Type) (ev : io X) (k : X -> prog A).
Arguments Ret {A} a.
Arguments Raise {A} e.
Arguments Vis {A X} ev k.

Fixpoint bind {A B : Type} (p : prog A) (f : A -> prog B) : prog B :=
  match p with
  | Ret a => f a
  | Raise e => Raise e
  | Vis ev k => Vis ev (fun x => bind (k x) f)
  end.

#[global] Instance prog_ret : MRet prog := @Ret.
#[global] Instance prog_bind : MBind prog := fun A B f p => bind p f.

(** [try: p  except ...: h]: [h e] is the matching clause, if any. *)
Fixpoint try_except {A : Type} (p : prog A) (h : exn -> option (prog A)) : prog A :=
  match p with
  | Ret a => Ret a
  | Raise e => match h e with
               | Some q => q
               | None => Raise e
               end
  | Vis ev k => Vis ev (fun x => try_except (k x) h)
  end.

Definition call {X : Type} (ev : io X) : prog X := Vis ev Ret.

Definition lift {X : Type} (o : outcome X) : prog X :=
  match o with
  | Ok x => Ret x
  | Exc e => Raise e
  end.

(** [await ev]: the answer, or the exception the call raised. *)
Definition await {X : Type} (ev : io (outcome X)) : prog X := Vis ev lift.

(** *** Running a program against an environment *)

(** One call and its answer. *)
Inductive entry : Type :=
| Ev (X : Type) (ev : io X) (x : X).
Arguments Ev {X} ev x.

Definition trace : Type := list entry.

Inductive result (A : Type) : Type :=
| Returned (a : A)
| Raised (e : exn).
Arguments Returned {A} a.
Arguments Raised {A} e.

(** The environment answers the [n]-th call of a run. *)
Definition oracle : Type := forall X : Type, nat -> io X -> X.

Fixpoint exec {A : Type} (o : oracle) (n : nat) (p : prog A) : trace * result A :=
  match p with
  | Ret a => ([], Returned a)
  | Raise e => ([], Raised e)
  | Vis ev k =>
      let x := o _ n ev in
      let '(tr, r) := exec o (S n) (k x) in
      (Ev ev x :: tr, r)
  end.

Definition run {A : Type} (o : oracle) (p : prog A) : trace * result A := exec o 0%nat p.

(** *** Kinds of entries *)

Definition is_patch (e : entry) : bool :=
  match e with
  | Ev (HttpPatch _ _ _) _ => true
  | _ => false
  end.

Definition is_channel_send (e : entry) : bool :=
  match e with
  | Ev (ChannelSend _ _) _ => true
  | _ => false
  end.

Definition is_create_task (e : entry) : bool :=
  match e with
  | Ev (CreateTask _) _ => true
  | _ => false
  end.

End Effects.

(** ** The cog *)

Module Cog.
Import Effects.

Definition NL : string := String "010"%char EmptyString.

#[global] Instance outcome_ret : MRet outcome := @Ok.
#[global] Instance outcome_bind : MBind outcome :=
  fun A B f o => match o with
                 | Ok a => f a
                 | Exc e => Exc e
                 end.

(** [sorted(xs, key=key)] for a [str] key.  The sort is stable and uses
    [<] only; every stable sort returns this list. *)
Fixpoint insert {A : Type} (key : A -> string) (x : A) (l : list A) : list A :=
  match l with
  | [] => [x]
  | y :: l' => if Str.ltb (key y) (key x) then y :: insert key x l' else x :: l
  end.

Fixpoint sorted {A : Type} (key : A -> string) (l : list A) : list A :=
  match l with
  | [] => []
  | x :: l' => insert key x (sorted key l')
  end.

Definition embed (t : string) (d : option string) (c : option Z) : Embed :=
  {| title := t; description := d; color := c; fields := [] |}.

(** [e.add_field(name=n, value=v)] *)
Definition add_field (e : Embed) (n v : string) : Embed :=
  {| title := title e; description := description e; color := color e;
     fields := fields e ++ [(n, v)] |}.

Definition red : option Z := Some 16711680.      (* 0xFF0000 *)
Definition green : option Z := Some 65280.       (* 0x00FF00 *)
Definition sand : Z := 15065566.                 (* 0xE5E1DE *)


(** [self.bot.get_channel(self.<id_attr>)] *)
Definition get_channel (self : gmap string value) (id_attr : string)
  : prog (option channel) :=
  bot ← lift (getattr self "bot");
  match bot with
  | VBot => id ← lift (getattr self id_attr); call (GetChannel id)
  | _ => Raise (AttributeError "object" "get_channel")
  end.

(** [self.REQUIRED_ROLE_ID not in [r.id for r in ctx.author.roles]] *)
Definition lacks_role (self : gmap string value) (ctx : Context) : prog bool :=
  role ← lift (getattr self "REQUIRED_ROLE_ID");
  mret (negb (existsb (value_eqb role) (map VInt (author_roles ctx)))).

(** *** The periodic refresher *)

(** The generator inside [sorted(...)]: each item is kept when its start,
    read from the text without its last character, is after the clock
    reading taken for that item. *)
Fixpoint filter_upcoming `{Python} (events : list ScheduledEvent)
  : prog (list ScheduledEvent) :=
  match events with
  | [] => mret []
  | e :: es =>
      start ← match read_iso (Str.drop_last (ev_scheduled_start_time e)) with
              | Some d => mret d
              | None =>
                  Raise (ValueError
                           ("Invalid isoformat string: "
                            +:+ Str.repr (Str.drop_last (ev_scheduled_start_time e))))
              end;
      now ← call UtcNow;
      keep ← lift (Datetime.gt start (Datetime.naive now));
      rest ← filter_upcoming es;
      mret (if keep : bool then e :: rest else rest)
  end.

(** [upcoming[:2]] *)
Definition page_size : nat := 2.

(** [{"name": e["name"], "value": e.get("description", "")}] *)
Definition render_field (e : ScheduledEvent) : string * option string :=
  (ev_name e,
   match ev_description e with
   | Absent => Some EmptyString
   | Null => None
   | Given s => Some s
   end).

Definition render (upcoming : list ScheduledEvent) : EmbedDict :=
  match upcoming with
  | [] =>
      {| d_title := "Upcoming Flights";
         d_description := Some "No flights scheduled.";
         d_fields := None;
         d_color := sand;
         d_footer := "Updates every 5 min" |}
  | _ =>
      {| d_title := "Upcoming Flights";
         d_description := None;
         d_fields := Some (map render_field (firstn page_size upcoming));
         d_color := sand;
         d_footer := "Updates every 5 min" |}
  end.

Definition update_webhook `{Python} (self : gmap string value) : prog unit :=
  token ← lift (getattr self "TOKEN");
  let h := [("Authorization", "Bot " +:+ value_str token);
            ("Content-Type", "application/json")] in
  guild ← lift (getattr self "GUILD_ID");
  let url := "https://discord.com/api/v10/guilds/" +:+ value_str guild
             +:+ "/scheduled-events" in
  status ← await (HttpGet url h);
  if negb (status =? 200) then
    call (LogWarning ("Failed to fetch scheduled events, status " +:+ Str.of_Z status))
  else
    events ← await JsonEvents;
    kept ← filter_upcoming events;
    let upcoming := sorted ev_scheduled_start_time kept in
    let embed := render upcoming in
    wurl ← lift (getattr self "WEBHOOK_URL");
    wmid ← lift (getattr self "WEBHOOK_MESSAGE_ID");
    let patch_url := value_str wurl +:+ "/messages/" +:+ value_str wmid in
    st ← await (HttpPatch patch_url [embed] [("Content-Type", "application/json")]);
    (if negb ((st =? 200) || (st =? 204))
     then call (LogWarning ("Failed to update webhook embed, status " +:+ Str.of_Z st))
     else mret tt);;
    log_channel ← get_channel self "LOGGING_CHANNEL_ID";
    match log_channel with
    | Some c => await (ChannelSend c (Text "Updated flight schedule webhook."));; mret tt
    | None => mret tt
    end.

(** *** Asking the invoker *)

Definition ask (self : gmap string value) (prompt : content) : prog string :=
  await (CtxSend prompt);;
  try_except
    (bot ← lift (getattr self "bot");
     msg ← match bot with
           | VBot => await (WaitForMessage 60)
           | _ => Raise (AttributeError "object" "wait_for")
           end;
     if String.eqb (Str.lower msg) "cancel" then
       await (CtxSend (Rich (embed "Flight creation cancelled." None red)));;
       Raise CancelledError
     else mret msg)
    (fun e =>
       match e with
       | TimeoutError =>
           Some (await (CtxSend (Rich (embed "Timed out. Please try again later." None red)));;
                 Raise TimeoutError)
       | _ => None
       end).

(** *** flight create *)

(** The description written into a new event. *)
Definition creation_template (flight_number departure arrival aircraft_type : string)
  : string :=
  "<:Tail:1375059430269517885> **Etihad Airways** cordially invites you to attend Flight **"
  +:+ flight_number +:+ "**, "
  +:+ "operating from **" +:+ departure +:+ "** to **" +:+ arrival
  +:+ "** aboard a **" +:+ aircraft_type +:+ "**." +:+ NL +:+ NL
  +:+ "<:Star:1375535064141795460> All passengers are requested to review the flight itinerary in `#itinerary` prior to departure to ensure a smooth and professional operation.".

Definition ask_embed (t d : string) : content := Rich (embed t (Some d) None).

Definition logging_embed (n v : string) : content :=
  Rich (add_field (embed "Logging" None (Some sand)) n v).

Definition flight_create (self : gmap string value) (ctx : Context) : prog unit :=
  try_except
    (denied ← lacks_role self ctx;
     if denied : bool then
       await (CtxReply (Text "You don't have permission to use this command."))
     else
       flight_number ← ask self (ask_embed "Flight Number" "Enter the flight number (e.g., EA301).");
       flight_time_raw ← ask self (ask_embed "Flight Time" "Enter the flight time as a Unix timestamp (e.g., 1727780400).");
       flight_time ← match Str.int flight_time_raw with
                     | Some n => mret n
                     | None =>
                         Raise (ValueError ("invalid literal for int() with base 10: "
                                            +:+ Str.repr flight_time_raw))
                     end;
       start ← lift (Datetime.utcfromtimestamp flight_time);
       end_ ← lift (Datetime.add start (Datetime.minutes 45));
       aircraft_type ← ask self (ask_embed "Aircraft Type" "Enter the aircraft type (e.g., A320neo).");
       departure ← ask self (ask_embed "Departure" "Enter the departure airport (e.g., Edinburgh).");
       arrival ← ask self (ask_embed "Arrival" "Enter the arrival airport (e.g., Madeira).");
       roblox_link ← ask self (ask_embed "Roblox Link" "Enter the Roblox game link.");
       let payload :=
         {| p_name := flight_number +:+ " | " +:+ departure +:+ " - " +:+ arrival;
            p_description := creation_template flight_number departure arrival aircraft_type;
            p_scheduled_start_time := Datetime.isoformat start;
            p_scheduled_end_time := Datetime.isoformat end_;
            p_privacy_level := 2;
            p_entity_type := 3;
            p_location := roblox_link |} in
       guild ← lift (getattr self "GUILD_ID");
       token ← lift (getattr self "TOKEN");
       status ← await (HttpPost
                         ("https://discord.com/api/v10/guilds/" +:+ value_str guild +:+ "/scheduled-events")
                         payload
                         [("Authorization", "Bot " +:+ value_str token);
                          ("Content-Type", "application/json")]);
       if status =? 201 then
         await (CtxSend (Rich (embed "âœ… Flight created successfully!" None green)));;
         log ← get_channel self "LOGGING_CHANNEL_ID";
         match log with
         | Some c =>
             await (ChannelSend c
                      (logging_embed "Create Flight"
                         (author ctx +:+ " created flight " +:+ flight_number)));;
             mret tt
         | None => mret tt
         end
       else
         await (CtxSend (Rich (embed "Failed to create flight"
                                 (Some ("Status code: " +:+ Str.of_Z status)) red))))
    (fun e =>
       match e with
       | CancelledError => Some (mret tt)
       | _ =>
           if is_Exception e
           then Some (await (CtxSend (Rich (embed "Error" (Some (exn_str e)) red))))
           else None
       end).

(** *** flight start *)

(** The pattern [flight_start] searches the description for. *)
Definition pattern : Regex.regex :=
  [ Regex.Lit "<:Tail:"; Regex.Plus Regex.Digit; Regex.Lit ">";
    Regex.Plus Regex.Space;
    Regex.Lit "**Etihad Airways** cordially invites you to attend Flight";
    Regex.Plus Regex.Space; Regex.Lit "**"; Regex.GroupLazy Regex.AnyChar;
    Regex.Lit "**, operating from";
    Regex.Plus Regex.Space; Regex.Lit "**"; Regex.GroupLazy Regex.AnyChar;
    Regex.Lit "** to";
    Regex.Plus Regex.Space; Regex.Lit "**"; Regex.GroupLazy Regex.AnyChar;
    Regex.Lit "** aboard" ].

(** [re.search(pattern, description, re.DOTALL)] and
    [(g.strip() for g in match.groups())], unpacked into three names. *)
Definition extract (description : string) : option (string * string * string) :=
  match Regex.search pattern description with
  | Some [g1; g2; g3] => Some (Str.strip g1, Str.strip g2, Str.strip g3)
  | _ => None
  end.

Definition lock_offset : Datetime.timedelta := Datetime.minutes 15.

(** [ev.get("entity_metadata", {}).get("location", "")]: a string, or
    [None] when the key [location] holds [null]; [AttributeError] when
    [entity_metadata] itself holds [null]. *)
Definition roblox_link_of (ev : ScheduledEvent) : outcome (option string) :=
  match ev_entity_metadata ev with
  | Absent => Ok (Some EmptyString)
  | Null => Exc (AttributeError "NoneType" "get")
  | Given Absent => Ok (Some EmptyString)
  | Given Null => Ok None
  | Given (Given s) => Ok (Some s)
  end.

(** [ev.get("description", "").strip()]: [AttributeError] when the key
    holds [null]. *)
Definition description_of (ev : ScheduledEvent) : outcome string :=
  match ev_description ev with
  | Absent => Ok (Str.strip EmptyString)
  | Null => Exc (AttributeError "NoneType" "strip")
  | Given s => Ok (Str.strip s)
  end.

(** [f"{roblox_link}"] *)
Definition link_text (roblox_link : option string) : string :=
  default "None" roblox_link.

(** [max(0, int((lock_time - now).total_seconds() / 60))] *)
Definition minutes_until_lock (lock_time now : Datetime.datetime) : outcome Z :=
  td ← Datetime.sub lock_time now;
  mret (Z.max 0 (Float64.trunc (Float64.div_int (Datetime.total_seconds td) 60))).

Definition open_message (departure arrival flight_number : string)
  (minutes_until_lock : Z) (roblox_link : string) : string :=
  "<:Plane:1379811896106156052> **Check-in Now Open**" +:+ NL
  +:+ "-# " +:+ departure +:+ NL +:+ NL
  +:+ "<:Dash:1379811908886204567> **-**" +:+ NL
  +:+ "> Attention all passengers flying to **" +:+ arrival +:+ "** on flight **"
  +:+ flight_number +:+ "**, check-in is now open and will close in **"
  +:+ Str.of_Z minutes_until_lock +:+ " minutes**. "
  +:+ "If you are in need of any assistance throughout your journey, please reach out to a member of staff! Have a good flight."
  +:+ NL +:+ NL
  +:+ "<:Link:1379811829076856842> " +:+ roblox_link +:+ NL +:+ NL
  +:+ "|| @everyone @Operations Ping ||".

Definition closed_message (departure flight_number arrival : string) : string :=
  "<:Lock:1379811903332679830> **Check-in Closed**" +:+ NL
  +:+ "-# " +:+ departure +:+ NL +:+ NL
  +:+ "<:Dash:1379811908886204567> **-**" +:+ NL
  +:+ "> Check-in for flight **" +:+ flight_number +:+ "** to **" +:+ arrival
  +:+ "** has now been closed. If you have missed your flight, please attend the next one!"
  +:+ NL +:+ NL
  +:+ "-# <:Tail:1379811826467868804> **ETIHAD OPERATIONS**".

(** The coroutine [asyncio.create_task] runs later. *)
Definition send_checkin_closed (c : Closure) : prog unit :=
  now ← call NowUtc;
  td ← lift (Datetime.sub (c_lock_time c) (Datetime.aware_utc now));
  await (Sleep (Datetime.total_seconds td));;
  try_except
    (await (MessageDelete (c_msg c)))
    (fun e => if is_HTTPException e then Some (mret tt) else None);;
  await (ChannelSend (c_chan c)
           (Text (closed_message (c_departure c) (c_flight_number c) (c_arrival c))));;
  mret tt.

Definition error_embed (d : string) : content := Rich (embed "Error" (Some d) red).

Definition flight_start `{Python} (self : gmap string value) (ctx : Context)
  (link : option string) : prog unit :=
  denied ← lacks_role self ctx;
  if denied : bool then
    await (CtxReply (Text "You don't have permission to use this command."))
  else
    match link with
    | None | Some EmptyString => await (CtxReply (error_embed "Provide an event link!"))
    | Some link =>
        let event_id := Str.last_item (Str.split "/" (Str.rstrip_char "/" link)) in
        guild ← lift (getattr self "GUILD_ID");
        token ← lift (getattr self "TOKEN");
        status ← await (HttpGet
                          ("https://discord.com/api/v10/guilds/" +:+ value_str guild
                           +:+ "/scheduled-events/" +:+ event_id)
                          [("Authorization", "Bot " +:+ value_str token)]);
        if negb (status =? 200) then
          await (CtxReply (error_embed "Invalid link or event!"))
        else
          ev ← await JsonEvent;
          roblox_link ← lift (roblox_link_of ev);
          description ← lift (description_of ev);
          match extract description with
          | None =>
              await (CtxReply (error_embed "Failed to parse event description for flight info."))
          | Some (flight_number, departure, arrival) =>
              now ← call NowUtc;
              start_time ←
                match read_iso
                        (Str.replace_char "Z" "+00:00" (ev_scheduled_start_time ev)) with
                | Some d => mret d
                | None =>
                    Raise (ValueError
                             ("Invalid isoformat string: "
                              +:+ Str.repr (Str.replace_char "Z" "+00:00"
                                              (ev_scheduled_start_time ev))))
                end;
              lock_time ← lift (Datetime.add start_time lock_offset);
              minutes ← lift (minutes_until_lock lock_time (Datetime.aware_utc now));
              let message := open_message departure arrival flight_number minutes
                               (link_text roblox_link) in
              chan ← get_channel self "ANNOUNCEMENT_CHANNEL_ID";
              match chan with
              | None => await (CtxReply (error_embed "Announcement channel not found."))
              | Some chan =>
                  msg ← await (ChannelSend chan (Text message));
                  call (CreateTask
                          {| c_lock_time := lock_time; c_msg := msg; c_chan := chan;
                             c_departure := departure; c_flight_number := flight_number;
                             c_arrival := arrival |});;
                  await (CtxReply (Rich (embed "Flight Started"
                                           (Some ("Flight '" +:+ ev_name ev +:+ "' started."))
                                           green)));;
                  log ← get_channel self "LOGGING_CHANNEL_ID";
                  match log with
                  | Some c =>
                      await (ChannelSend c
                               (logging_embed "Start Flight"
                                  (author ctx +:+ " started " +:+ ev_name ev)));;
                      mret tt
                  | None => mret tt
                  end
              end
          end
    end.

(** *** flight cancel *)

Definition flight_cancel (self : gmap string value) (ctx : Context)
  (flight_id : option string) : prog unit :=
  denied ← lacks_role self ctx;
  if denied : bool then
    await (CtxReply (Text "You don't have permission to use this command."))
  else
    match flight_id with
    | None | Some EmptyString => await (CtxReply (error_embed "Provide a flight ID!"))
    | Some flight_id =>
        guild ← lift (getattr self "GUILD_ID");
        token ← lift (getattr self "TOKEN");
        status ← await (HttpDelete
                          ("https://discord.com/api/v10/guilds/" +:+ value_str guild
                           +:+ "/scheduled-events/" +:+ flight_id)
                          [("Authorization", "Bot " +:+ value_str token)]);
        if status =? 204 then
          await (CtxReply (Rich (embed "Success"
                                   (Some ("Flight " +:+ flight_id +:+ " canceled.")) green)));;
          log ← get_channel self "LOGGING_CHANNEL_ID";
          match log with
          | Some c =>
              await (ChannelSend c
                       (logging_embed "Cancel Flight"
                          (author ctx +:+ " canceled flight " +:+ flight_id)));;
              mret tt
          | None => mret tt
          end
        else
          await (CtxReply (error_embed ("Failed (status " +:+ Str.of_Z status +:+ ")")))
    end.

End Cog.

(** ** Reading a run *)

Module Observe.
Import Effects.

(** The status a fetch answered with. *)
Definition fetched_status (e : entry) : option Z :=
  match e with
  | Ev ev x =>
      match ev in io X return X -> option Z with
      | HttpGet _ _ => fun r => match r with
                                | Ok st => Some st
                                | Exc _ => None
                                end
      | _ => fun _ => None
      end x
  end.

(** The list of events a fetch answered with. *)
Definition fetched_events (e : entry) : option (list ScheduledEvent) :=
  match e with
  | Ev ev x =>
      match ev in io X return X -> option (list ScheduledEvent) with
      | JsonEvents => fun r => match r with
                               | Ok v => Some v
                               | Exc _ => None
                               end
      | _ => fun _ => None
      end x
  end.

(** The event a fetch of one event answered with. *)
Definition fetched_event (e : entry) : option ScheduledEvent :=
  match e with
  | Ev ev x =>
      match ev in io X return X -> option ScheduledEvent with
      | JsonEvent => fun r => match r with
                              | Ok v => Some v
                              | Exc _ => None
                              end
      | _ => fun _ => None
      end x
  end.

(** The body of a creation request. *)
Definition posted (e : entry) : option Payload :=
  match e with
  | Ev (HttpPost _ p _) _ => Some p
  | _ => None
  end.

(** The embeds of a webhook patch. *)
Definition patched (e : entry) : option (list EmbedDict) :=
  match e with
  | Ev (HttpPatch _ ds _) _ => Some ds
  | _ => None
  end.

(** The delay handed to [asyncio.sleep]. *)
Definition slept (e : entry) : option Float64.f64 :=
  match e with
  | Ev (Sleep d) _ => Some d
  | _ => None
  end.

(** The closure handed to [asyncio.create_task]. *)
Definition created (e : entry) : option Closure :=
  match e with
  | Ev (CreateTask c) _ => Some c
  | _ => None
  end.

(** The number of fields of an embed dictionary. *)
Definition field_count (d : EmbedDict) : nat :=
  match d_fields d with
  | Some fs => length fs
  | None => 0
  end.

(** The names of the fields of an embed dictionary, in order. *)
Definition field_names (d : EmbedDict) : list string :=
  match d_fields d with
  | Some fs => map fst fs
  | None => []
  end.

Definition result_of {X : Type} (x : outcome X) : result X :=
  match x with
  | Ok a => Returned a
  | Exc e => Raised e
  end.

End Observe.

(** ** Sample objects and environments *)

Module Samples.
Import Effects.

(** A cog whose configuration is bound on the instance. *)
Definition configured : gmap string value :=
  <["LOGGING_CHANNEL_ID" := VInt 1288927464080543806]>
  (<["WEBHOOK_MESSAGE_ID" := VStr "1290778370749104263"]>
  (<["WEBHOOK_URL" := VStr "https://discord.com/api/webhooks/1/x"]>
  (<["ANNOUNCEMENT_CHANNEL_ID" := VInt 1290777608782483640]>
  (<["REQUIRED_ROLE_ID" := VInt 1288926707285495941]>
  (<["GUILD_ID" := VStr "1288926604415733854"]>
  (__init__ (VStr "token"))))))).

Definition staff : Context :=
  {| author := "ops#0001"; author_roles := [1288926707285495941] |}.

(** A Python that reads the grammar of [Datetime.fromisoformat] and nothing
    else, as 3.7 to 3.10 do with the texts met here. *)
Definition cpython_3_10 : Python := {| later_iso := fun _ => None |}.

Definition no_event : ScheduledEvent :=
  {| ev_name := ""; ev_description := Absent;
     ev_scheduled_start_time := ""; ev_entity_metadata := Absent |}.

(** An environment in which every call succeeds and nothing is found. *)
Definition quiet : oracle :=
  fun X n ev =>
    match ev in io X return X with
    | HttpGet _ _ => Ok 200
    | JsonEvents => Ok []
    | JsonEvent => Ok no_event
    | HttpPatch _ _ _ => Ok 204
    | HttpPost _ _ _ => Ok 201
    | HttpDelete _ _ => Ok 204
    | LogWarning _ => tt
    | UtcNow => 0
    | NowUtc => 0
    | GetChannel _ => None
    | ChannelSend _ _ => Ok 0
    | MessageDelete _ => Ok tt
    | CtxSend _ => Ok tt
    | CtxReply _ => Ok tt
    | WaitForMessage _ => Ok EmptyString
    | Sleep _ => Ok tt
    | CreateTask _ => tt
    end.

Definition flight (n start : string) : ScheduledEvent :=
  {| ev_name := n; ev_description := Given "desc";
     ev_scheduled_start_time := start; ev_entity_metadata := Absent |}.

(** Two items half a second apart; the earlier one is fetched first. *)
Definition on_the_second : ScheduledEvent := flight "EA301" "2030-01-01T00:00:00Z".
Definition half_past : ScheduledEvent := flight "EA302" "2030-01-01T00:00:00.500000Z".

(** 2026-11-03T00:00:00, in microseconds since 0001-01-01T00:00:00. *)
Definition today : Z := 63929260800000000.

(** The fetch returns the two items; the clock stands at [today]. *)
Definition two_flights : oracle :=
  fun X n ev =>
    match ev in io X return X with
    | JsonEvents => Ok [on_the_second; half_past]
    | UtcNow => today
    | NowUtc => today
    | ev => quiet _ n ev
    end.

(** An event written by [flight create], starting 2030-01-01T00:00:00Z. *)
Definition scheduled : ScheduledEvent :=
  {| ev_name := "EA301 | Edinburgh - Madeira";
     ev_description :=
       Given (Cog.creation_template "EA301" "Edinburgh" "Madeira" "A320neo");
     ev_scheduled_start_time := "2030-01-01T00:00:00Z";
     ev_entity_metadata := Given (Given "https://www.roblox.com/games/1") |}.

(** An event whose description was edited by hand. *)
Definition edited : ScheduledEvent :=
  {| ev_name := "EA301 | Edinburgh - Madeira";
     ev_description := Given "Flight EA301 from Edinburgh to Madeira";
     ev_scheduled_start_time := "2030-01-01T00:00:00Z";
     ev_entity_metadata := Given (Given "https://www.roblox.com/games/1") |}.

(** An event created without a description: the key holds [null]. *)
Definition undescribed : ScheduledEvent :=
  {| ev_name := "EA301 | Edinburgh - Madeira";
     ev_description := Null;
     ev_scheduled_start_time := "2030-01-01T00:00:00Z";
     ev_entity_metadata := Given (Given "https://www.roblox.com/games/1") |}.

(** The fetch of one event returns [ev]; channel 7 exists; the clock stands
    at [now]. *)
Definition serving (ev : ScheduledEvent) (now : Z) : oracle :=
  fun X n ev' =>
    match ev' in io X return X with
    | JsonEvent => Ok ev
    | GetChannel _ => Some 7
    | ChannelSend _ _ => Ok 99
    | NowUtc => now
    | UtcNow => now
    | ev' => quiet _ n ev'
    end.

(** As [serving], but the message to delete is already gone. *)
Definition already_deleted (now : Z) : oracle :=
  fun X n ev =>
    match ev in io X return X with
    | MessageDelete _ => Exc NotFound
    | ev => serving scheduled now _ n ev
    end.

(** As [serving], but the connection drops while deleting. *)
Definition connection_lost (now : Z) : oracle :=
  fun X n ev =>
    match ev in io X return X with
    | MessageDelete _ => Exc (OSError "Connection reset by peer")
    | ev => serving scheduled now _ n ev
    end.

(** 2030-01-01T00:15:00+00:00, the lock time of [scheduled]. *)
Definition lock_2030 : Datetime.datetime := Datetime.DT 64029053700000000 (Some 0).

Definition closing : Closure :=
  {| c_lock_time := lock_2030; c_msg := 99; c_chan := 7;
     c_departure := "Edinburgh"; c_flight_number := "EA301";
     c_arrival := "Madeira" |}.

(** The invoker answers the six prompts of [flight create]. *)
Definition answering : oracle :=
  fun X n ev =>
    match ev in io X return X with
    | WaitForMessage _ =>
        Ok (nth (Nat.div2 n)
              ["EA301"; "1727780400"; "A320neo"; "Edinburgh"; "Madeira";
               "https://www.roblox.com/games/1"] EmptyString)
    | ev => quiet _ n ev
    end.

(** The request [flight create] submits for those answers. *)
Definition submitted : Payload :=
  {| p_name := "EA301 | Edinburgh - Madeira";
     p_description := Cog.creation_template "EA301" "Edinburgh" "Madeira" "A320neo";
     p_scheduled_start_time := "2024-10-01T11:00:00";
     p_scheduled_end_time := "2024-10-01T11:45:00";
     p_privacy_level := 2;
     p_entity_type := 3;
     p_location := "https://www.roblox.com/games/1" |}.

(** Four fetched items: one five minutes in the past, three 10, 20 and 30
    minutes ahead of 2030-01-01T00:00:00, fetched latest first. *)
Definition four_flights : list ScheduledEvent :=
  [ flight "EA330" "2030-01-01T00:30:00Z";
    flight "EA299" "2029-12-31T23:55:00Z";
    flight "EA320" "2030-01-01T00:20:00Z";
    flight "EA310" "2030-01-01T00:10:00Z" ].

(** 2030-01-01T00:00:00, in microseconds since 0001-01-01T00:00:00. *)
Definition new_year : Z := 64029052800000000.

Definition busy_evening : oracle :=
  fun X n ev =>
    match ev in io X return X with
    | JsonEvents => Ok four_flights
    | UtcNow => new_year
    | ev => quiet _ n ev
    end.

(** The REST API answers every fetch with status 503. *)
Definition unavailable : oracle :=
  fun X n ev =>
    match ev in io X return X with
    | HttpGet _ _ => Ok 503
    | ev => quiet _ n ev
    end.

End Samples.

(** ** What a program can do *)

Module May.
Import Effects.

(** Every call the program can make, whatever the answers, satisfies [P]. *)
Inductive emits_only {A : Type} (P : entry -> Prop) : prog A -> Prop :=
| eo_ret (a : A) : emits_only P (Ret a)
| eo_raise (e : exn) : emits_only P (Raise e)
| eo_vis (X : Type) (ev : io X) (k : X -> prog A) :
    (forall x, P (Ev ev x)) ->
    (forall x, emits_only P (k x)) ->
    emits_only P (Vis ev k).

End May.

(** ** Calls in their order *)

Module History.
Import Effects.

(** [holds P Q past p]: in every run of [p] that starts after the calls
    [past] (the latest first), each call satisfies [P] of the calls made
    before it, and the run ends with an outcome that satisfies [Q] of all the
    calls made. *)
Inductive holds {A : Type} (P : trace -> entry -> Prop) (Q : trace -> result A -> Prop)
  : trace -> prog A -> Prop :=
| holds_ret (past : trace) (a : A) : Q past (Returned a) -> holds P Q past (Ret a)
| holds_raise (past : trace) (e : exn) : Q past (Raised e) -> holds P Q past (Raise e)
| holds_vis (past : trace) (X : Type) (ev : io X) (k : X -> prog A) :
    (forall x, P past (Ev ev x)) ->
    (forall x, holds P Q (Ev ev x :: past) (k x)) ->
    holds P Q past (Vis ev k).

End History.

(** ** The refresher's selection, as the specification words it *)

Module Selection.
Import Effects.

(** The start of an item as the refresher reads it: the text without its
    last character, as a naive date and time. *)
Definition start_wall `{Python} (e : ScheduledEvent) : option Z :=
  match read_iso (Str.drop_last (ev_scheduled_start_time e)) with
  | Some (Datetime.DT w None) => Some w
  | _ => None
  end.

(** The item starts strictly after the instant [now]. *)
Definition starts_after `{Python} (now : Z) (e : ScheduledEvent) : bool :=
  match start_wall e with
  | Some w => now <? w
  | None => false
  end.

(** The items that start after the clock reading taken for each of them;
    [clock i] is the reading taken for the item at position [i - n]. *)
Fixpoint retained `{Python} (clock : nat -> Z) (n : nat) (events : list ScheduledEvent)
  : list ScheduledEvent :=
  match events with
  | [] => []
  | e :: es =>
      if starts_after (clock n) e then e :: retained clock (S n) es
      else retained clock (S n) es
  end.

(** Ascending by start time: no item starts before its predecessor. *)
Fixpoint time_ascending `{Python} (l : list ScheduledEvent) : bool :=
  match l with
  | a :: (b :: _) as l' =>
      match start_wall a, start_wall b with
      | Some x, Some y => (x <=? y) && time_ascending l'
      | _, _ => false
      end
  | _ => true
  end.

(** [a] is not after [b] in the order of the keys. *)
Definition key_le {A : Type} (key : A -> string) (a b : A) : Prop :=
  Str.leb (key a) (key b) = true.

(** Ascending by the text of the start time. *)
Definition text_le : ScheduledEvent -> ScheduledEvent -> Prop :=
  key_le ev_scheduled_start_time.

(** The items of [l] whose start text is [k], in the order of [l]. *)
Definition with_text (k : string) (l : list ScheduledEvent) : list ScheduledEvent :=
  List.filter (fun e => String.eqb (ev_scheduled_start_time e) k) l.

End Selection.

(** ** The delayed action, as the specification words it *)

Module Notification.
Import Effects Cog.

(** A failure of the deletion that the delayed action passes over. *)
Definition passed_over (d : outcome unit) : Prop :=
  match d with
  | Ok _ => True
  | Exc e => is_HTTPException e = true
  end.

End Notification.

(** ** The extraction round trip, as the specification words it *)

Module RoundTrip.
Import Cog.

(** A field the invoker can type and read back: not empty, no white space
    at either end, and nowhere two asterisks in a row (the bold marker the
    template puts around each field). *)
Definition plain (s : string) : Prop :=
  s <> EmptyString /\ Str.strip s = s /\ Str.contains "**" s = false.

(** What [flight start] extracts from the description [flight create]
    writes for these answers. *)
Definition read_back (flight_number departure arrival aircraft_type : string)
  : option (string * string * string) :=
  extract (Str.strip (creation_template flight_number departure arrival aircraft_type)).

End RoundTrip.

(** ** The creation request, as the specification words it *)

Module Request.
Import Effects.

(** The start and the end of a creation request are the texts of a naive
    instant [start] and of the instant [end_] 45 minutes later, and they
    read back as these instants. *)
Definition start_and_end (p : Payload) : Prop :=
  exists raw t start end_,
    Str.int raw = Some t
    /\ Datetime.utcfromtimestamp t = Ok start
    /\ Datetime.add start (Datetime.minutes 45) = Ok end_
    /\ Datetime.wall end_ = Datetime.wall start + 45 * 60 * 1000000
    /\ p_scheduled_start_time p = Datetime.isoformat start
    /\ p_scheduled_end_time p = Datetime.isoformat end_
    /\ Datetime.fromisoformat (p_scheduled_start_time p) = Some start
    /\ Datetime.fromisoformat (p_scheduled_end_time p) = Some end_.

End Request.

(** * Properties *)

(** ** Running programs *)

Section Exec.
Import Effects.
Context {A B : Type}.

Lemma exec_bind (o : oracle) (p : prog A) (f : A -> prog B) :
  forall n,
    exec o n (p ≫= f) =
    match exec o n p with
    | (tr, Returned a) =>
        let '(tr', r) := exec o (n + length tr)%nat (f a) in ((tr ++ tr')%list, r)
    | (tr, Raised e) => (tr, Raised e)
    end.
Proof.
  induction p as [a | e | X ev k IH]; intros n.
  - cbn. rewrite Nat.add_0_r. change (mbind f (Ret a)) with (f a).
    destruct (exec o n (f a)); reflexivity.
  - reflexivity.
  - change (mbind f (Vis ev k)) with (Vis ev (fun x => k x ≫= f)).
    cbn [exec]. rewrite IH.
    destruct (exec o (S n) (k (o X n ev))) as [tr [a | e]]; cbn [length].
    + replace (n + S (length tr))%nat with (S n + length tr)%nat by lia.
      destruct (exec o (S n + length tr) (f a)); reflexivity.
    + reflexivity.
Qed.

Lemma exec_try_except (o : oracle) (p : prog A) (h : exn -> option (prog A)) :
  forall n,
    exec o n (try_except p h) =
    match exec o n p with
    | (tr, Returned a) => (tr, Returned a)
    | (tr, Raised e) =>
        match h e with
        | Some q => let '(tr', r) := exec o (n + length tr)%nat q in ((tr ++ tr')%list, r)
        | None => (tr, Raised e)
        end
    end.
Proof.
  induction p as [a | e | X ev k IH]; intros n.
  - reflexivity.
  - cbn. rewrite Nat.add_0_r. destruct (h e) as [q |]; [| reflexivity].
    destruct (exec o n q); reflexivity.
  - cbn [try_except exec]. rewrite IH.
    destruct (exec o (S n) (k (o X n ev))) as [tr [a | e]]; [reflexivity |].
    destruct (h e) as [q |]; [| reflexivity]. cbn [length].
    replace (n + S (length tr))%nat with (S n + length tr)%nat by lia.
    destruct (exec o (S n + length tr) q); reflexivity.
Qed.

End Exec.

(** Reduces the binds whose first program is known to return or raise. *)
Tactic Notation "prog_simpl" :=
  cbn [mbind mret Effects.prog_bind Effects.prog_ret Effects.bind Effects.lift
       Cog.outcome_bind Cog.outcome_ret].

Tactic Notation "prog_simpl" "in" hyp(H) :=
  cbn [mbind mret Effects.prog_bind Effects.prog_ret Effects.bind Effects.lift
       Cog.outcome_bind Cog.outcome_ret] in H.

Section Calls.
Import Effects Observe May.

Lemma exec_await {X : Type} (o : oracle) (n : nat) (ev : io (outcome X)) :
  exec o n (await ev) = ([Ev ev (o _ n ev)], result_of (o _ n ev)).
Proof. cbn. destruct (o _ n ev); reflexivity. Qed.

Lemma exec_call {X : Type} (o : oracle) (n : nat) (ev : io X) :
  exec o n (call ev) = ([Ev ev (o _ n ev)], Returned (o _ n ev)).
Proof. reflexivity. Qed.

Lemma emits_only_exec {A : Type} (P : entry -> Prop) (p : prog A) :
  emits_only P p -> forall o n, Forall P (fst (exec o n p)).
Proof.
  induction 1 as [a | e | X ev k HP _ IH]; intros o n; cbn [exec fst].
  - constructor.
  - constructor.
  - specialize (IH (o X n ev) o (S n)).
    destruct (exec o (S n) (k (o X n ev))) as [tr r]. cbn [fst] in *.
    constructor; [apply HP | exact IH].
Qed.

Lemma emits_only_bind {A B : Type} (P : entry -> Prop) (p : prog A) (f : A -> prog B) :
  emits_only P p -> (forall a, emits_only P (f a)) -> emits_only P (p ≫= f).
Proof.
  intros Hp Hf. induction Hp as [a | e | X ev k HP _ IH].
  - apply Hf.
  - constructor.
  - change (emits_only P (Vis ev (fun x => k x ≫= f))).
    constructor; [exact HP | exact IH].
Qed.

Lemma emits_only_try {A : Type} (P : entry -> Prop) (p : prog A)
  (h : exn -> option (prog A)) :
  emits_only P p ->
  (forall e q, h e = Some q -> emits_only P q) ->
  emits_only P (try_except p h).
Proof.
  intros Hp Hh. induction Hp as [a | e | X ev k HP _ IH]; cbn [try_except].
  - constructor.
  - destruct (h e) as [q |] eqn:E; [eapply Hh; eassumption | constructor].
  - constructor; [exact HP | exact IH].
Qed.

Lemma emits_only_lift {A : Type} (P : entry -> Prop) (x : outcome A) :
  emits_only P (lift x).
Proof. destruct x; constructor. Qed.

Lemma emits_only_await {X : Type} (P : entry -> Prop) (ev : io (outcome X)) :
  (forall x, P (Ev ev x)) -> emits_only P (await ev).
Proof. intros H. constructor; [exact H | intros x; apply emits_only_lift]. Qed.

Lemma emits_only_call {X : Type} (P : entry -> Prop) (ev : io X) :
  (forall x, P (Ev ev x)) -> emits_only P (call ev).
Proof. intros H. constructor; [exact H | intros x; constructor]. Qed.

Lemma emits_only_ret {A : Type} (P : entry -> Prop) (a : A) :
  emits_only P (mret a).
Proof. constructor. Qed.

End Calls.

(** Breaks a program into its calls; leaves one goal per call. *)
Ltac emits_step :=
  first
    [ apply May.eo_ret
    | apply May.eo_raise
    | apply emits_only_ret
    | apply emits_only_lift
    | apply emits_only_await; intros ?
    | apply emits_only_call; intros ?
    | match goal with
      | |- May.emits_only _ (mbind _ (Effects.lift ?x)) =>
          destruct x eqn:?; prog_simpl
      | |- May.emits_only _ (mbind _ (match ?x with _ => _ end)) =>
          destruct x eqn:?; prog_simpl
      end
    | apply emits_only_bind; [| intros ?]
    | apply emits_only_try; [| intros ? ? ?]
    | match goal with
      | |- May.emits_only _ (if ?b then _ else _) => destruct b eqn:?
      | |- May.emits_only _ (match ?x with _ => _ end) => destruct x eqn:?
      | |- May.emits_only _ (let '(_, _) := ?x in _) => destruct x eqn:?
      end ].

(** Closes a case in which the run is too short to contain the entry the
    hypothesis [Hin] speaks of. *)
Ltac no_such_entry Hin He :=
  exfalso; cbn [fst app In] in Hin;
  repeat (let Heq := fresh in
          destruct Hin as [Heq | Hin];
          [rewrite <- Heq in He; cbn in He; discriminate |]);
  exact Hin.

(** ** Calls in their order *)

Section Order.
Import Effects Observe History.

Lemma holds_exec {A : Type} (P : trace -> entry -> Prop) (Q : trace -> result A -> Prop)
  (past : trace) (p : prog A) :
  holds P Q past p ->
  forall o n,
    (forall pre e post, fst (exec o n p) = (pre ++ e :: post)%list -> P (rev pre ++ past)%list e)
    /\ Q (rev (fst (exec o n p)) ++ past)%list (snd (exec o n p)).
Proof.
  induction 1 as [past a HQ | past e HQ | past X ev k HP _ IH]; intros o n.
  - split; [| exact HQ]. intros [| a0 pre] x post H; discriminate.
  - split; [| exact HQ]. intros [| a0 pre] x post H; discriminate.
  - cbn [exec]. specialize (IH (o X n ev) o (S n)).
    destruct (exec o (S n) (k (o X n ev))) as [tr r]. cbn [fst snd] in *.
    destruct IH as [IHP IHQ]. split.
    + intros [| a pre] e post H; cbn [app] in H.
      * injection H as <- _. apply HP.
      * injection H as <- H. cbn [rev]. rewrite <- app_assoc. apply (IHP pre e post H).
    + cbn [rev]. rewrite <- app_assoc. exact IHQ.
Qed.

Lemma holds_run {A : Type} (P : trace -> entry -> Prop) (Q : trace -> result A -> Prop)
  (p : prog A) :
  holds P Q [] p ->
  forall o,
    (forall pre e post, fst (run o p) = (pre ++ e :: post)%list -> P (rev pre) e)
    /\ Q (rev (fst (run o p))) (snd (run o p)).
Proof.
  intros H o. destruct (holds_exec P Q [] p H o 0%nat) as [HP HQ].
  rewrite app_nil_r in HQ. split; [| exact HQ].
  intros pre e post E. specialize (HP pre e post E). by rewrite app_nil_r in HP.
Qed.

Lemma holds_bind {A B : Type} (P : trace -> entry -> Prop) (Q : trace -> result B -> Prop)
  (past : trace) (p : prog A) (f : A -> prog B) :
  holds P (fun h r => match r with
                      | Returned a => holds P Q h (f a)
                      | Raised e => Q h (Raised e)
                      end) past p ->
  holds P Q past (p ≫= f).
Proof.
  induction 1 as [past a HQ | past e HQ | past X ev k HP _ IH].
  - exact HQ.
  - by constructor.
  - change (holds P Q past (Vis ev (fun x => k x ≫= f))).
    constructor; [exact HP | exact IH].
Qed.

Lemma holds_try {A : Type} (P : trace -> entry -> Prop) (Q : trace -> result A -> Prop)
  (past : trace) (p : prog A) (hdl : exn -> option (prog A)) :
  holds P (fun h r => match r with
                      | Returned a => Q h (Returned a)
                      | Raised e => match hdl e with
                                    | Some q => holds P Q h q
                                    | None => Q h (Raised e)
                                    end
                      end) past p ->
  holds P Q past (try_except p hdl).
Proof.
  induction 1 as [past a HQ | past e HQ | past X ev k HP _ IH]; cbn [try_except].
  - by constructor.
  - destruct (hdl e); [exact HQ | by constructor].
  - constructor; [exact HP | exact IH].
Qed.

Lemma holds_await {A : Type} (P : trace -> entry -> Prop) (Q : trace -> result A -> Prop)
  (past : trace) (ev : io (outcome A)) :
  (forall x, P past (Ev ev x)) ->
  (forall x, Q (Ev ev x :: past) (result_of x)) ->
  holds P Q past (await ev).
Proof.
  intros HP HQ. constructor; [exact HP |].
  intros [a | e]; constructor; apply (HQ (Ok a)) || apply (HQ (Exc e)).
Qed.

Lemma holds_call {A : Type} (P : trace -> entry -> Prop) (Q : trace -> result A -> Prop)
  (past : trace) (ev : io A) :
  (forall x, P past (Ev ev x)) ->
  (forall x, Q (Ev ev x :: past) (Returned x)) ->
  holds P Q past (call ev).
Proof. intros HP HQ. constructor; [exact HP |]. intros x. constructor. apply HQ. Qed.

Lemma holds_lift {A : Type} (P : trace -> entry -> Prop) (Q : trace -> result A -> Prop)
  (past : trace) (x : outcome A) :
  Q past (result_of x) -> holds P Q past (lift x).
Proof. destruct x; intros H; constructor; exact H. Qed.

Lemma holds_mret {A : Type} (P : trace -> entry -> Prop) (Q : trace -> result A -> Prop)
  (past : trace) (a : A) :
  Q past (Returned a) -> holds P Q past (mret a).
Proof. intros H. constructor. exact H. Qed.

End Order.

(** Rewrites the comparisons of integers the branches of a program leave in
    the context. *)
Ltac branch_facts :=
  repeat match goal with
         | H : negb _ = true |- _ => apply negb_true_iff in H
         | H : negb _ = false |- _ => apply negb_false_iff in H
         | H : (_ =? _) = true |- _ => apply Z.eqb_eq in H
         | H : (_ =? _) = false |- _ => apply Z.eqb_neq in H
         | H : (_ || _) = false |- _ => apply orb_false_iff in H; destruct H
         end.

Lemma rev_nil_inv {A : Type} (l : list A) : rev l = [] -> l = [].
Proof.
  intros H. apply (f_equal (@rev A)) in H. by rewrite rev_involutive in H.
Qed.

Lemma rev_eq_inv {A : Type} (l l' : list A) : rev l = l' -> l = rev l'.
Proof. intros <-. by rewrite rev_involutive. Qed.

Lemma existsb_rev {A : Type} (f : A -> bool) (l : list A) :
  existsb f (rev l) = existsb f l.
Proof.
  induction l as [| x l IH]; [reflexivity |].
  cbn [rev existsb]. rewrite existsb_app, IH. cbn [existsb].
  rewrite orb_false_r. apply orb_comm.
Qed.

(** Breaks a program into its calls, keeping the calls made so far; leaves
    one goal per call and one per way of ending. *)
Ltac holds_step :=
  lazymatch goal with
  | |- History.holds _ _ _ ?p =>
      lazymatch p with
      | mret _ => apply holds_mret
      | Effects.Ret _ => apply History.holds_ret
      | Effects.Raise _ => apply History.holds_raise
      | Effects.await _ =>
          apply holds_await; [intros ? | intros [? | ?]; cbn [Observe.result_of]]
      | Effects.call _ => apply holds_call; intros ?
      | Effects.lift _ => apply holds_lift
      | mbind _ (Effects.lift ?x) => destruct x eqn:?; prog_simpl
      | mbind _ (match ?x with _ => _ end) => destruct x eqn:?; prog_simpl
      | mbind _ _ => apply holds_bind
      | Effects.try_except _ _ => apply holds_try
      | if ?b then _ else _ => destruct b eqn:?
      | match ?x with _ => _ end => destruct x eqn:?
      end
  end.

Ltac holds_steps := repeat (holds_step; cbn beta iota).

(** ** Strings *)

Section Strings.

Lemma append_nil_l (b : string) : EmptyString +:+ b = b.
Proof. reflexivity. Qed.

Lemma append_cons (c : ascii) (a b : string) : String c a +:+ b = String c (a +:+ b).
Proof. reflexivity. Qed.

Lemma append_nonempty_r (a b : string) : b <> EmptyString -> a +:+ b <> EmptyString.
Proof. destruct a; [auto | rewrite append_cons; discriminate]. Qed.

Lemma rstrip_by_append (p : ascii -> bool) (a b : string) :
  b <> EmptyString -> Str.rstrip_by p b = b -> Str.rstrip_by p (a +:+ b) = a +:+ b.
Proof.
  intros Hne Hb. induction a as [| c a IH]; [exact Hb |].
  change (Str.rstrip_by p (String c (a +:+ b)) = String c (a +:+ b)).
  cbn [Str.rstrip_by]. rewrite IH. pose proof (append_nonempty_r a b Hne).
  destruct (a +:+ b); [contradiction | reflexivity].
Qed.

Lemma contains_tail (x : string) (c : ascii) (s : string) :
  Str.contains x (String c s) = false -> Str.contains x s = false.
Proof.
  cbn [Str.contains]. intros H. apply orb_false_iff in H. tauto.
Qed.

Lemma contains_suffix (x a b : string) :
  Str.contains x (a +:+ b) = false -> Str.contains x b = false.
Proof.
  induction a as [| c a IH]; [auto |].
  rewrite append_cons. intros H. apply IH. eapply contains_tail, H.
Qed.

End Strings.

(** ** Order on texts *)

Section TextOrder.

Lemma ascii_compare_refl (a : ascii) : Ascii.compare a a = Eq.
Proof. unfold Ascii.compare. apply N.compare_refl. Qed.

Lemma string_compare_refl (s : string) : String.compare s s = Eq.
Proof.
  induction s as [| c s IH]; cbn; [reflexivity |].
  rewrite ascii_compare_refl. exact IH.
Qed.

Lemma string_compare_trans_lt (a b c : string) :
  String.compare a b = Lt -> String.compare b c = Lt -> String.compare a c = Lt.
Proof.
  revert b c. induction a as [| x a IH]; intros [| y b] [| z c]; cbn;
    try congruence.
  unfold Ascii.compare.
  destruct (N.compare_spec (N_of_ascii x) (N_of_ascii y)) as [Hxy | Hxy | Hxy];
    destruct (N.compare_spec (N_of_ascii y) (N_of_ascii z)) as [Hyz | Hyz | Hyz];
    try congruence; intros H1 H2.
  - rewrite <- Hyz, Hxy, N.compare_refl. eauto.
  - rewrite Hxy. apply N.compare_lt_iff in Hyz. by rewrite Hyz.
  - rewrite <- Hyz. apply N.compare_lt_iff in Hxy. by rewrite Hxy.
  - assert (H : (N_of_ascii x < N_of_ascii z)%N) by lia.
    apply N.compare_lt_iff in H. by rewrite H.
Qed.

Lemma ltb_leb (a b : string) : Str.ltb a b = true -> Str.leb a b = true.
Proof.
  unfold Str.ltb, Str.leb, String.ltb, String.leb.
  destruct (String.compare a b); congruence.
Qed.

Lemma not_ltb_leb (a b : string) : Str.ltb a b = false -> Str.leb b a = true.
Proof.
  unfold Str.ltb, Str.leb, String.ltb, String.leb.
  rewrite (String.compare_antisym a b).
  destruct (String.compare b a); cbn; congruence.
Qed.

Lemma ltb_neq (a b : string) : Str.ltb a b = true -> a <> b.
Proof.
  unfold Str.ltb, String.ltb. intros H ->.
  rewrite string_compare_refl in H. discriminate.
Qed.

Lemma leb_trans (a b c : string) :
  Str.leb a b = true -> Str.leb b c = true -> Str.leb a c = true.
Proof.
  unfold Str.leb, String.leb.
  destruct (String.compare a b) eqn:Hab; try discriminate;
    destruct (String.compare b c) eqn:Hbc; try discriminate; intros _ _.
  - apply String.compare_eq_iff in Hab, Hbc. subst.
    by rewrite string_compare_refl.
  - apply String.compare_eq_iff in Hab. subst. by rewrite Hbc.
  - apply String.compare_eq_iff in Hbc. subst. by rewrite Hab.
  - by rewrite (string_compare_trans_lt a b c Hab Hbc).
Qed.

End TextOrder.

(** ** Sorting *)

Section Sorting.
Import Cog Selection.
Context {A : Type} (key : A -> string).

Lemma insert_perm (x : A) (l : list A) : Permutation (insert key x l) (x :: l).
Proof.
  induction l as [| y l IH]; cbn [insert]; [reflexivity |].
  destruct (Str.ltb (key y) (key x)); [| reflexivity].
  rewrite IH. apply perm_swap.
Qed.

Lemma sorted_perm (l : list A) : Permutation (sorted key l) l.
Proof.
  induction l as [| x l IH]; cbn [sorted]; [reflexivity |].
  rewrite insert_perm. by constructor.
Qed.

Lemma insert_sorted (x : A) (l : list A) :
  StronglySorted (key_le key) l -> StronglySorted (key_le key) (insert key x l).
Proof.
  induction 1 as [| y l Hs IH Hy]; cbn [insert].
  - repeat constructor.
  - destruct (Str.ltb (key y) (key x)) eqn:E.
    + constructor; [exact IH |].
      rewrite (insert_perm x l). constructor; [| exact Hy].
      by apply ltb_leb.
    + assert (Hxy : key_le key x y) by (by apply not_ltb_leb).
      constructor; [by constructor |].
      constructor; [exact Hxy |].
      eapply Forall_impl; [exact Hy |].
      intros z Hz. unfold key_le in *. eapply leb_trans; eassumption.
Qed.

Lemma sorted_sorted (l : list A) : StronglySorted (key_le key) (sorted key l).
Proof.
  induction l as [| x l IH]; cbn [sorted]; [constructor |].
  by apply insert_sorted.
Qed.

Lemma insert_stable (k : string) (x : A) (l : list A) :
  List.filter (fun e => String.eqb (key e) k) (insert key x l)
  = List.filter (fun e => String.eqb (key e) k) (x :: l).
Proof.
  induction l as [| y l IH]; cbn [insert]; [reflexivity |].
  destruct (Str.ltb (key y) (key x)) eqn:E; [| reflexivity].
  cbn [List.filter] in *. rewrite IH.
  destruct (String.eqb_spec (key x) k) as [Hx | Hx]; [| reflexivity].
  destruct (String.eqb_spec (key y) k) as [Hy | Hy]; [| reflexivity].
  apply ltb_neq in E. congruence.
Qed.

Lemma sorted_stable (k : string) (l : list A) :
  List.filter (fun e => String.eqb (key e) k) (sorted key l)
  = List.filter (fun e => String.eqb (key e) k) l.
Proof.
  induction l as [| x l IH]; cbn [sorted]; [reflexivity |].
  rewrite insert_stable. cbn [List.filter]. by rewrite IH.
Qed.

End Sorting.

(** ** Binary64: signs *)

Section FloatSign.
Import Float64.

Lemma scaled_pos (a b e : Z) :
  0 < a -> 0 < b -> 0 < fst (scaled a b e) /\ 0 < snd (scaled a b e).
Proof.
  intros Ha Hb. unfold scaled. destruct (Z.leb_spec 0 e); cbn [fst snd].
  - split; [lia |]. apply Z.mul_pos_pos; [lia |]. apply Z.pow_pos_nonneg; lia.
  - split; [| lia]. apply Z.mul_pos_pos; [lia |]. apply Z.pow_pos_nonneg; lia.
Qed.

Lemma round_half_even_nonneg (n d : Z) : 0 <= n -> 0 < d -> 0 <= round_half_even n d.
Proof.
  intros Hn Hd. unfold round_half_even.
  pose proof (Z.div_pos n d Hn Hd).
  repeat match goal with |- context [if ?b then _ else _] => destruct b end; lia.
Qed.

Lemma div_pos_nonneg (a b : Z) : 0 < a -> 0 < b -> 0 <= fm (div_pos a b).
Proof.
  intros Ha Hb. unfold div_pos.
  destruct (scaled_pos a b (exponent a b) Ha Hb) as [Hn Hd].
  destruct (scaled a b (exponent a b)) as [n d]. cbn [fst snd fm] in *.
  apply round_half_even_nonneg; lia.
Qed.

Lemma rn_div_nonpos (a b : Z) : 0 < b -> a <= 0 -> le0 (rn_div a b) = true.
Proof.
  intros Hb Ha. unfold le0, rn_div. apply Z.leb_le.
  destruct (Z.eqb_spec a 0); [cbn; lia |].
  destruct (Z.ltb_spec 0 a); [lia |]. cbn [fm].
  pose proof (div_pos_nonneg (- a) b). lia.
Qed.

End FloatSign.

(** ** Binary64: quotients *)

Section FloatQuotient.
Import Float64.

Lemma pow2_pos (k : Z) : 0 <= k -> 0 < 2 ^ k.
Proof. intros. apply Z.pow_pos_nonneg; lia. Qed.

Lemma round_half_even_spec (n d : Z) :
  0 < d ->
  let m := round_half_even n d in
  (m = n / d /\ 2 * (n mod d) <= d) \/ (m = n / d + 1 /\ d <= 2 * (n mod d)).
Proof.
  intros Hd. unfold round_half_even. cbv zeta.
  destruct (Z.ltb_spec (2 * (n mod d)) d); [left; lia |].
  destruct (Z.ltb_spec d (2 * (n mod d))); [right; lia |].
  destruct (Z.even (n / d)); [left | right]; lia.
Qed.

(** scaled bounds for e0 *)
Lemma scaled_first_guess (a b : Z) :
  0 < a -> 0 < b ->
  let e := Z.log2 a - Z.log2 b - 53 in
  2 ^ 52 * snd (scaled a b e) <= fst (scaled a b e) < 2 ^ 54 * snd (scaled a b e).
Proof.
  intros Ha Hb e.
  pose proof (Z.log2_spec a Ha) as [Ha1 Ha2].
  pose proof (Z.log2_spec b Hb) as [Hb1 Hb2].
  pose proof (Z.log2_nonneg a) as Hla. pose proof (Z.log2_nonneg b) as Hlb.
  rewrite Z.pow_succ_r in Ha2, Hb2 by assumption.
  unfold scaled. destruct (Z.leb_spec 0 e) as [He | He]; cbn [fst snd].
  - assert (E : 2 ^ Z.log2 a = 2 ^ Z.log2 b * 2 ^ 53 * 2 ^ e).
    { rewrite <- !Z.pow_add_r by lia. f_equal. lia. }
    pose proof (pow2_pos e He). pose proof (pow2_pos (Z.log2 b) Hlb).
    set (X := 2 ^ Z.log2 b) in *. set (E' := 2 ^ e) in *. set (A := 2 ^ Z.log2 a) in *.
    change (2 ^ 52) with 4503599627370496. change (2 ^ 54) with 18014398509481984.
    change (2 ^ 53) with 9007199254740992 in E.
    nia.
  - assert (E : 2 ^ Z.log2 a * 2 ^ (- e) = 2 ^ Z.log2 b * 2 ^ 53).
    { rewrite <- !Z.pow_add_r by lia. f_equal. lia. }
    assert (0 < 2 ^ (- e)) by (apply pow2_pos; lia).
    pose proof (pow2_pos (Z.log2 b) Hlb).
    set (X := 2 ^ Z.log2 b) in *. set (F := 2 ^ (- e)) in *. set (A := 2 ^ Z.log2 a) in *.
    change (2 ^ 52) with 4503599627370496. change (2 ^ 54) with 18014398509481984.
    change (2 ^ 53) with 9007199254740992 in E.
    nia.
Qed.

Lemma scaled_next (a b e : Z) :
  0 < a -> 0 < b ->
  (fst (scaled a b (e + 1)) = fst (scaled a b e)
   /\ snd (scaled a b (e + 1)) = 2 * snd (scaled a b e))
  \/ (fst (scaled a b e) = 2 * fst (scaled a b (e + 1))
      /\ snd (scaled a b (e + 1)) = snd (scaled a b e)).
Proof.
  intros Ha Hb. unfold scaled.
  destruct (Z.leb_spec 0 e) as [He | He].
  - destruct (Z.leb_spec 0 (e + 1)); [| lia]. left. cbn [fst snd].
    rewrite Z.pow_add_r by lia. change (2 ^ 1) with 2. lia.
  - right. destruct (Z.leb_spec 0 (e + 1)); cbn [fst snd].
    + assert (e = -1) as -> by lia. cbn. lia.
    + replace (- e) with (- (e + 1) + 1) by lia.
      rewrite Z.pow_add_r by lia. change (2 ^ 1) with 2. lia.
Qed.

Lemma exponent_spec (a b : Z) :
  0 < a -> 0 < b ->
  let e := exponent a b in
  2 ^ 52 * snd (scaled a b e) <= fst (scaled a b e) < 2 ^ 53 * snd (scaled a b e).
Proof.
  intros Ha Hb. unfold exponent.
  set (e0 := Z.log2 a - Z.log2 b - 53).
  pose proof (scaled_first_guess a b Ha Hb) as H0. fold e0 in H0. cbv zeta in H0.
  pose proof (scaled_pos a b e0 Ha Hb) as [Hn Hd].
  destruct (scaled_next a b e0 Ha Hb) as [[E1 E2] | [E1 E2]];
    destruct (scaled a b e0) as [n d] eqn:En; cbn [fst snd] in *;
    pose proof (Z.div_mod n d ltac:(lia)) as Hdm;
    pose proof (Z.mod_pos_bound n d Hd) as Hmod;
    change (2 ^ 52) with 4503599627370496 in *;
    change (2 ^ 53) with 9007199254740992 in *;
    change (2 ^ 54) with 18014398509481984 in *;
    destruct (Z.ltb_spec (n / d) 9007199254740992) as [Hq | Hq]; cbv zeta.
  - rewrite En. cbn [fst snd]. nia.
  - rewrite E1, E2. nia.
  - rewrite En. cbn [fst snd]. nia.
  - rewrite E2. nia.
Qed.

Lemma exponent_neg (a b : Z) :
  0 < a -> 0 < b -> a < 2 ^ 52 * b -> exponent a b < 0.
Proof.
  intros Ha Hb Hsmall.
  pose proof (exponent_spec a b Ha Hb) as H. cbv zeta in H.
  destruct (Z.ltb_spec (exponent a b) 0) as [| He]; [assumption | exfalso].
  unfold scaled in H. destruct (Z.leb_spec 0 (exponent a b)); [| lia].
  cbn [fst snd] in H. pose proof (pow2_pos _ He).
  change (2 ^ 52) with 4503599627370496 in *. nia.
Qed.

Lemma div_pos_pos (a b : Z) : 0 < a -> 0 < b -> 0 < fm (div_pos a b).
Proof.
  intros Ha Hb.
  pose proof (exponent_spec a b Ha Hb) as H. cbv zeta in H.
  pose proof (scaled_pos a b (exponent a b) Ha Hb) as [Hn Hd].
  unfold div_pos. destruct (scaled a b (exponent a b)) as [n d]. cbn [fst snd fm] in *.
  assert (Hq : 2 ^ 52 <= n / d) by (apply Z.div_le_lower_bound; lia).
  change (2 ^ 52) with 4503599627370496 in Hq.
  destruct (round_half_even_spec n d Hd) as [[-> _] | [-> _]]; lia.
Qed.

(** The quotient of a negative number is negative: it is not rounded to
    zero. *)
Lemma rn_div_neg (a b : Z) : 0 < b -> a < 0 -> fm (rn_div a b) < 0.
Proof.
  intros Hb Ha. unfold rn_div.
  destruct (Z.eqb_spec a 0); [lia |].
  destruct (Z.ltb_spec 0 a); [lia |]. cbn [fm].
  pose proof (div_pos_pos (- a) b ltac:(lia) Hb). lia.
Qed.

(** The quotient of two positive integers below 2^52, as a float. *)
Lemma div_pos_small (a b : Z) :
  0 < a -> 0 < b -> a < 2 ^ 52 * b ->
  exists k m,
    0 < k /\ div_pos a b = F64 m (- k)
    /\ 2 ^ 52 <= a * 2 ^ k / b < 2 ^ 53
    /\ ((m = a * 2 ^ k / b /\ 2 * ((a * 2 ^ k) mod b) <= b)
        \/ (m = a * 2 ^ k / b + 1 /\ b <= 2 * ((a * 2 ^ k) mod b))).
Proof.
  intros Ha Hb Hsmall.
  pose proof (exponent_neg a b Ha Hb Hsmall) as He.
  pose proof (exponent_spec a b Ha Hb) as Hs. cbv zeta in Hs.
  exists (- exponent a b), (fm (div_pos a b)).
  unfold div_pos in *. unfold scaled in *.
  destruct (Z.leb_spec 0 (exponent a b)); [lia |]. cbn [fst snd fm] in *.
  rewrite Z.opp_involutive.
  split; [lia |]. split; [reflexivity |]. split.
  - split; [apply Z.div_le_lower_bound; lia | apply Z.div_lt_upper_bound; lia].
  - apply round_half_even_spec. exact Hb.
Qed.

Lemma pow2_le_30 (k j : Z) :
  0 <= k -> 0 <= j -> 2 ^ j <= 30 * 2 ^ k -> 2 ^ j <= 16 * 2 ^ k.
Proof.
  intros Hk Hj H.
  destruct (Z.le_gt_cases j (k + 4)) as [Hle | Hgt].
  - change 16 with (2 ^ 4). rewrite <- Z.pow_add_r by lia. rewrite Z.add_comm.
    apply Z.pow_le_mono_r; lia.
  - exfalso. assert (H5 : 2 ^ (k + 5) <= 2 ^ j) by (apply Z.pow_le_mono_r; lia).
    rewrite Z.pow_add_r in H5 by lia. change (2 ^ 5) with 32 in H5.
    pose proof (pow2_pos k Hk). lia.
Qed.

Lemma minutes_core (a k j m my : Z) :
  0 < a -> a < 2 ^ 34 * 1000000 -> 0 < k -> 0 < j ->
  2 ^ 52 <= a * 2 ^ k / 1000000 < 2 ^ 53 ->
  ((m = a * 2 ^ k / 1000000 /\ 2 * ((a * 2 ^ k) mod 1000000) <= 1000000)
   \/ (m = a * 2 ^ k / 1000000 + 1 /\ 1000000 <= 2 * ((a * 2 ^ k) mod 1000000))) ->
  2 ^ 52 <= m * 2 ^ j / (60 * 2 ^ k) < 2 ^ 53 ->
  ((my = m * 2 ^ j / (60 * 2 ^ k) /\ 2 * ((m * 2 ^ j) mod (60 * 2 ^ k)) <= 60 * 2 ^ k)
   \/ (my = m * 2 ^ j / (60 * 2 ^ k) + 1
       /\ 60 * 2 ^ k <= 2 * ((m * 2 ^ j) mod (60 * 2 ^ k)))) ->
  my / 2 ^ j = a / 60000000.
Proof.
  intros Ha Hbound Hk Hj Hm0 Hm Hf Hmy.
  pose proof (pow2_pos k ltac:(lia)) as HU.
  pose proof (pow2_pos j ltac:(lia)) as HW.
  pose proof (pow2_le_30 k j ltac:(lia) ltac:(lia)) as Hpow.
  assert (HU19 : 2 ^ 19 <= 2 ^ k).
  { apply Z.pow_le_mono_r; [lia |].
    destruct (Z.le_gt_cases 19 k) as [| Hlt]; [assumption | exfalso].
    assert (H18 : 2 ^ k <= 2 ^ 18) by (apply Z.pow_le_mono_r; lia).
    assert (a * 2 ^ k / 1000000 < 2 ^ 52); [| lia].
    apply Z.div_lt_upper_bound; [lia |].
    change (2 ^ 52) with (1 * 17179869184 * 262144).
    change (2 ^ 34) with 17179869184 in *. change (2 ^ 18) with 262144 in *.
    apply Z.le_lt_trans with (a * 262144);
      [apply Z.mul_le_mono_nonneg_l; lia | lia]. }
  set (U := 2 ^ k) in *. set (W := 2 ^ j) in *.
  change (2 ^ 19) with 524288 in *.
  change (2 ^ 52) with 4503599627370496 in *.
  change (2 ^ 53) with 9007199254740992 in *.
  change (2 ^ 34) with 17179869184 in *.
  pose proof (Z.div_mod (a * U) 1000000 ltac:(lia)) as E0.
  pose proof (Z.mod_pos_bound (a * U) 1000000 ltac:(lia)) as R0.
  pose proof (Z.div_mod (m * W) (60 * U) ltac:(lia)) as E1.
  pose proof (Z.mod_pos_bound (m * W) (60 * U) ltac:(lia)) as R1.
  pose proof (Z.div_mod a 60000000 ltac:(lia)) as E2.
  pose proof (Z.mod_pos_bound a 60000000 ltac:(lia)) as R2.
  set (m0 := a * U / 1000000) in *. set (r0 := (a * U) mod 1000000) in *.
  set (f := m * W / (60 * U)) in *. set (r1 := (m * W) mod (60 * U)) in *.
  set (q := a / 60000000) in *. set (r2 := a mod 60000000) in *.
  assert (Hq : 0 <= q) by (subst q; apply Z.div_pos; lia).
  (* a U lies between 60000000 q U and 60000000 (q+1) U - U *)
  assert (PaL : 60000000 * (q * U) <= a * U).
  { replace (60000000 * (q * U)) with ((60000000 * q) * U) by ring.
    apply Z.mul_le_mono_nonneg_r; lia. }
  assert (PaU : a * U <= 60000000 * (q * U) + 60000000 * U - U).
  { replace (60000000 * (q * U) + 60000000 * U - U)
      with ((60000000 * q + 59999999) * U) by ring.
    apply Z.mul_le_mono_nonneg_r; lia. }
  assert (L0 : 60 * (q * U) <= m0) by lia.
  assert (U0 : m0 <= 60 * (q * U) + 60 * U - 1) by lia.
  assert (Lm : 60 * (q * U) <= m) by lia.
  assert (Um : m <= 60 * (q * U) + 60 * U - 1).
  { destruct Hm as [[-> _] | [-> Hr]]; lia. }
  (* m W lies between 60 q U W and 60 (q+1) U W - W *)
  assert (PmL : 60 * (q * U * W) <= m * W).
  { replace (60 * (q * U * W)) with ((60 * (q * U)) * W) by ring.
    apply Z.mul_le_mono_nonneg_r; lia. }
  assert (PmU : m * W <= 60 * (q * U * W) + 60 * (U * W) - W).
  { replace (60 * (q * U * W) + 60 * (U * W) - W)
      with ((60 * (q * U) + 60 * U - 1) * W) by ring.
    apply Z.mul_le_mono_nonneg_r; lia. }
  assert (Lf : q * W <= f).
  { apply Z.div_le_lower_bound; [lia |].
    replace (60 * U * (q * W)) with (60 * (q * U * W)) by ring. exact PmL. }
  assert (Uf : f < (q + 1) * W).
  { apply Z.div_lt_upper_bound; [lia |].
    replace (60 * U * ((q + 1) * W)) with (60 * (q * U * W) + 60 * (U * W)) by ring.
    lia. }
  symmetry. apply (Z.div_unique my W q (my - q * W)); [| lia].
  left. split; [lia |].
  destruct Hmy as [[-> _] | [-> Hr]]; [lia |].
  destruct (Z.eq_dec f ((q + 1) * W - 1)) as [Heq | Hne]; [| lia].
  exfalso.
  assert (EUf : 60 * U * f = 60 * (q * U * W) + 60 * (U * W) - 60 * U).
  { rewrite Heq. ring. }
  assert (HW30 : W <= 30 * U) by lia.
  specialize (Hpow HW30).
  assert (HmW : m * W <= 9007199254740992 * W).
  { apply Z.mul_le_mono_nonneg_r; lia. }
  assert (HfU : 4503599627370496 * (60 * U) <= 60 * U * f).
  { rewrite (Z.mul_comm (60 * U) f). apply Z.mul_le_mono_nonneg_r; lia. }
  lia.
Qed.

Lemma trunc_nonpos (x : f64) : fm x <= 0 -> trunc x <= 0.
Proof.
  intros H. unfold trunc. destruct (Z.leb_spec 0 (fe x)) as [He | He].
  - pose proof (pow2_pos (fe x) He). nia.
  - assert (Hp : 0 < 2 ^ (- fe x)) by (apply pow2_pos; lia).
    pose proof (Z.quot_pos (- fm x) (2 ^ (- fe x)) ltac:(lia) Hp) as Hq.
    rewrite Z.quot_opp_l in Hq by lia. lia.
Qed.

Lemma div_int_nonpos (x : f64) (n : Z) : 0 < n -> fm x <= 0 -> fm (div_int x n) <= 0.
Proof.
  intros Hn Hx. apply Z.leb_le. unfold div_int.
  destruct (Z.leb_spec 0 (fe x)) as [He | He]; apply rn_div_nonpos.
  - exact Hn.
  - pose proof (pow2_pos (fe x) He). nia.
  - apply Z.mul_pos_pos; [lia | apply pow2_pos; lia].
  - exact Hx.
Qed.

(** Up to 2^34 seconds the two roundings do not reach the next minute. *)
Lemma minutes_exact (td : Z) :
  0 < td -> td < 2 ^ 34 * 1000000 ->
  trunc (div_int (rn_div td 1000000) 60) = td / 60000000.
Proof.
  intros Hpos Hbound.
  assert (Hsmall : td < 2 ^ 52 * 1000000).
  { change (2 ^ 34) with 17179869184 in Hbound.
    change (2 ^ 52) with 4503599627370496. lia. }
  destruct (div_pos_small td 1000000 Hpos ltac:(lia) Hsmall)
    as (k & m & Hk & Hx & Hm0 & Hm).
  unfold rn_div. destruct (Z.eqb_spec td 0); [lia |].
  destruct (Z.ltb_spec 0 td); [| lia]. rewrite Hx.
  unfold div_int. cbn [fe fm]. destruct (Z.leb_spec 0 (- k)); [lia |].
  rewrite Z.opp_involutive.
  assert (HU : 0 < 2 ^ k) by (apply pow2_pos; lia).
  assert (HU2 : 2 <= 2 ^ k).
  { change 2 with (2 ^ 1) at 1. apply Z.pow_le_mono_r; lia. }
  assert (Hmpos : 0 < m).
  { change (2 ^ 52) with 4503599627370496 in Hm0. lia. }
  assert (Hmsmall : m < 2 ^ 52 * (60 * 2 ^ k)).
  { change (2 ^ 52) with 4503599627370496 in *.
    change (2 ^ 53) with 9007199254740992 in *. lia. }
  destruct (div_pos_small m (60 * 2 ^ k) Hmpos ltac:(lia) Hmsmall)
    as (j & my & Hj & Hy & Hf & Hmy).
  unfold rn_div. destruct (Z.eqb_spec m 0); [lia |].
  destruct (Z.ltb_spec 0 m); [| lia]. rewrite Hy.
  unfold trunc. cbn [fe fm]. destruct (Z.leb_spec 0 (- j)); [lia |].
  rewrite Z.opp_involutive.
  assert (HW : 0 < 2 ^ j) by (apply pow2_pos; lia).
  assert (Hmy0 : 0 <= my).
  { change (2 ^ 52) with 4503599627370496 in Hf. lia. }
  rewrite Z.quot_div_nonneg by lia.
  apply (minutes_core td k j m my); assumption.
Qed.

End FloatQuotient.

(** ** The calendar and the ISO texts *)

Ltac divlia := Z.div_mod_to_equations; lia.

Section Calendar.
Import Datetime.

Lemma all_from_spec (f : Z -> bool) (fuel : nat) :
  forall v, all_from fuel v f = true ->
  forall x, v <= x < v + Z.of_nat fuel -> f x = true.
Proof.
  induction fuel as [| k IH]; intros v H x Hx; [lia |].
  cbn [all_from] in H. apply andb_prop in H. destruct H as [Hv Hk].
  destruct (Z.eq_dec x v) as [-> | Hne]; [exact Hv |].
  apply (IH (v + 1) Hk). lia.
Qed.

Lemma month_day_spec (leap : bool) (n : Z) :
  0 <= n < (if leap then 366 else 365) -> month_day_ok leap n = true.
Proof.
  intros Hn.
  apply (all_from_spec (month_day_ok leap) (if leap then 366 else 365) 0);
    destruct leap; first [vm_compute; reflexivity | lia].
Qed.



Lemma is_leap_cycles (n400 n100 n4 n1 : Z) :
  0 <= n400 -> 0 <= n100 <= 3 -> 0 <= n4 <= 24 -> 0 <= n1 <= 3 ->
  is_leap (n400 * 400 + 1 + n100 * 100 + n4 * 4 + n1)
  = (n1 =? 3) && (negb (n4 =? 24) || (n100 =? 3)).
Proof.
  intros H400 H100 H4 H1. unfold is_leap.
  set (y := n400 * 400 + 1 + n100 * 100 + n4 * 4 + n1).
  destruct (Z.eqb_spec n1 3) as [E1 | E1];
    destruct (Z.eqb_spec n4 24) as [E4 | E4];
    destruct (Z.eqb_spec n100 3) as [E100 | E100];
    destruct (Z.eqb_spec (y mod 4) 0) as [Y4 | Y4];
    destruct (Z.eqb_spec (y mod 100) 0) as [Y100 | Y100];
    destruct (Z.eqb_spec (y mod 400) 0) as [Y400 | Y400];
    cbn; try reflexivity; exfalso; subst y; divlia.
Qed.

Lemma days_before_year_cycles (n400 n100 n4 n1 : Z) :
  0 <= n400 -> 0 <= n100 <= 3 -> 0 <= n4 <= 24 -> 0 <= n1 <= 3 ->
  days_before_year (n400 * 400 + 1 + n100 * 100 + n4 * 4 + n1)
  = 146097 * n400 + 36524 * n100 + 1461 * n4 + 365 * n1.
Proof. intros. unfold days_before_year. cbv zeta. divlia. Qed.

Lemma ord2ymd_spec (n : Z) :
  1 <= n <= 3652059 ->
  valid_date (ord2ymd n).1.1 (ord2ymd n).1.2 (ord2ymd n).2 = true
  /\ ymd2ord (ord2ymd n).1.1 (ord2ymd n).1.2 (ord2ymd n).2 = n.
Proof.
  intros Hn. unfold ord2ymd. cbv zeta.
  set (n0 := n - 1).
  set (n400 := n0 / 146097). set (r400 := n0 mod 146097).
  set (n100 := r400 / 36524). set (r100 := r400 mod 36524).
  set (n4 := r100 / 1461). set (r4 := r100 mod 1461).
  set (n1 := r4 / 365). set (r1 := r4 mod 365).
  assert (Hn0 : n0 = n - 1) by reflexivity.
  assert (H400 : 0 <= n400 <= 24) by (subst n400 n0; divlia).
  assert (H100 : 0 <= n100 <= 4) by (subst n100 r400 n0; divlia).
  assert (H4 : 0 <= n4 <= 24) by (subst n4 r100 r400 n0; divlia).
  assert (H1 : 0 <= n1 <= 4) by (subst n1 r4 r100 r400 n0; divlia).
  assert (Hr1 : 0 <= r1 < 365) by (subst r1; divlia).
  assert (En : n0 = 146097 * n400 + 36524 * n100 + 1461 * n4 + 365 * n1 + r1).
  { subst r1 n1 r4 n4 r100 n100 r400 n400. divlia. }
  assert (Hy : n400 * 400 + 1 + n100 * 100 + n4 * 4 + n1 <= 9999
               \/ (n1 = 4 \/ n100 = 4)
                  /\ n400 * 400 + 1 + n100 * 100 + n4 * 4 + n1 <= 10000).
  { subst r1 n1 r4 n4 r100 n100 r400 n400 n0. divlia. }
  destruct (Z.eqb_spec n1 4) as [E1 | E1]; [| destruct (Z.eqb_spec n100 4) as [E100 | E100]];
    cbn [orb fst snd].
  - (* the last day of a 4-year cycle *)
    assert (r1 = 0 /\ n4 <= 23 /\ n100 <= 3) as (Er & H4' & H100').
    { subst r1 n1 r4 n4 r100 n100 r400 n400 n0. divlia. }
    replace (n400 * 400 + 1 + n100 * 100 + n4 * 4 + n1 - 1)
      with (n400 * 400 + 1 + n100 * 100 + n4 * 4 + 3) by lia.
    unfold valid_date, ymd2ord, days_in_month, days_before_month.
    rewrite is_leap_cycles, days_before_year_cycles by lia.
    destruct (Z.eqb_spec n4 24); [lia |].
    change (days_before_month_table 12) with 334.
    change (days_in_month_table 12) with 31. cbn.
    split; [| lia].
    repeat (apply andb_true_intro; split);
      first [reflexivity | apply Z.leb_le; lia].
  - (* the last day of a 400-year cycle *)
    assert (r1 = 0 /\ n4 = 0 /\ n1 = 0) as (Er & E4 & E1').
    { subst r1 n1 r4 n4 r100 n100 r400 n400 n0. divlia. }
    replace (n400 * 400 + 1 + n100 * 100 + n4 * 4 + n1 - 1)
      with (n400 * 400 + 1 + 3 * 100 + 24 * 4 + 3) by lia.
    unfold valid_date, ymd2ord, days_in_month, days_before_month.
    rewrite is_leap_cycles, days_before_year_cycles by lia.
    change (days_before_month_table 12) with 334.
    change (days_in_month_table 12) with 31. cbn.
    split; [| lia].
    repeat (apply andb_true_intro; split);
      first [reflexivity | apply Z.leb_le; lia].
  - set (leapyear := (n1 =? 3) && (negb (n4 =? 24) || (n100 =? 3))).
    pose proof (month_day_spec leapyear r1 ltac:(destruct leapyear; lia)) as Hmd.
    unfold month_day_ok in Hmd.
    destruct (month_day leapyear r1) as [m d]. cbn [fst snd].
    repeat (apply andb_prop in Hmd; destruct Hmd as [Hmd ?]).
    repeat match goal with
           | H : (_ <=? _) = true |- _ => apply Z.leb_le in H
           | H : (_ =? _) = true |- _ => apply Z.eqb_eq in H
           end.
    unfold valid_date, ymd2ord, days_in_month, days_before_month.
    rewrite is_leap_cycles, days_before_year_cycles by lia. fold leapyear.
    split.
    2: { generalize dependent (if (2 <? m) && leapyear then 1 else 0).
         generalize (days_before_month_table m). intros. lia. }
    repeat (apply andb_true_intro; split);
      try first [reflexivity | apply Z.leb_le; lia].
    apply Z.leb_le.
    destruct ((m =? 2) && leapyear) eqn:E; [| lia].
    apply andb_prop in E. destruct E as [E _]. apply Z.eqb_eq in E. subst m.
    change (days_in_month_table 2) with 28 in H0. lia.
Qed.

Lemma pad2_digits (v : Z) : 0 <= v < 100 -> pad 2 v = digits2 v.
Proof.
  intros Hv. apply String.eqb_eq.
  apply (all_from_spec (fun v => String.eqb (pad 2 v) (digits2 v)) (Z.to_nat 100) 0);
    [vm_compute; reflexivity | rewrite Z2Nat.id; lia].
Qed.

Lemma pad4_digits (v : Z) : 0 <= v < 10000 -> pad 4 v = digits4 v.
Proof.
  intros Hv. apply String.eqb_eq.
  apply (all_from_spec (fun v => String.eqb (pad 4 v) (digits4 v)) (Z.to_nat 10000) 0);
    [vm_compute; reflexivity | rewrite Z2Nat.id; lia].
Qed.

Lemma read_digit_char (n : nat) (d : Z) (rest : string) (acc : Z) :
  0 <= d <= 9 ->
  read_digits (S n) (String (digit_char d) rest) acc = read_digits n rest (10 * acc + d).
Proof.
  intros Hd.
  assert (H : d = 0 \/ d = 1 \/ d = 2 \/ d = 3 \/ d = 4 \/ d = 5 \/ d = 6 \/ d = 7
              \/ d = 8 \/ d = 9) by lia.
  repeat (destruct H as [-> | H]; [reflexivity |]). subst d. reflexivity.
Qed.

Lemma read_pad2 (v : Z) (rest : string) :
  0 <= v < 100 -> read_digits 2 (pad 2 v +:+ rest) 0 = Some (v, rest).
Proof.
  intros Hv. rewrite pad2_digits by lia. unfold digits2.
  change (String ?a (String ?b EmptyString) +:+ rest) with (String a (String b rest)).
  rewrite (read_digit_char 1 (v / 10)) by divlia.
  rewrite (read_digit_char 0 (v mod 10)) by divlia.
  cbn [read_digits]. f_equal. f_equal. divlia.
Qed.

Lemma read_pad4 (v : Z) (rest : string) :
  0 <= v < 10000 -> read_digits 4 (pad 4 v +:+ rest) 0 = Some (v, rest).
Proof.
  intros Hv. rewrite pad4_digits by lia. unfold digits4, digits2.
  change (String ?a (String ?b (String ?c (String ?d EmptyString))) +:+ rest)
    with (String a (String b (String c (String d rest)))).
  rewrite (read_digit_char 3 (v / 1000)) by divlia.
  rewrite (read_digit_char 2 (v / 100 mod 10)) by divlia.
  rewrite (read_digit_char 1 (v mod 100 / 10)) by divlia.
  rewrite (read_digit_char 0 (v mod 100 mod 10)) by divlia.
  cbn [read_digits]. f_equal. f_equal. divlia.
Qed.

Lemma read_char_cons (c : ascii) (rest : string) :
  read_char c (String c EmptyString +:+ rest) = Some rest.
Proof.
  change (String c EmptyString +:+ rest) with (String c rest).
  cbn [read_char]. by rewrite Ascii.eqb_refl.
Qed.

Lemma fromisoformat_isoformat (w : Z) :
  in_range w = true -> w mod 1000000 = 0 ->
  fromisoformat (isoformat (naive w)) = Some (naive w).
Proof.
  intros Hr Hs. unfold in_range, max_wall, us_per_day, us_per_second in Hr.
  apply andb_prop in Hr. destruct Hr as [Hlo Hhi].
  apply Z.leb_le in Hlo. apply Z.ltb_lt in Hhi.
  unfold isoformat, naive. cbn [wall tz]. unfold us_per_day, us_per_second.
  set (days := w / (86400 * 1000000)). set (rest := w mod (86400 * 1000000)).
  assert (Hdays : 1 <= days + 1 <= 3652059) by (subst days; divlia).
  pose proof (ord2ymd_spec (days + 1) Hdays) as [Hvalid Hord].
  destruct (ord2ymd (days + 1)) as [[y m] d]. cbn [fst snd] in *.
  assert (Hus : rest mod 1000000 = 0) by (subst rest; divlia).
  rewrite Hus. cbn [Z.eqb].
  set (secs := rest / 1000000).
  assert (Hsecs : 0 <= secs < 86400) by (subst secs rest; divlia).
  pose proof Hvalid as Hv. unfold valid_date in Hv.
  repeat (apply andb_prop in Hv; destruct Hv as [Hv ?]).
  repeat match goal with
         | H : (_ <=? _) = true |- _ => apply Z.leb_le in H
         end.
  assert (Hd31 : d <= 31).
  { assert (days_in_month y m <= 31); [| lia].
    unfold days_in_month. destruct ((m =? 2) && is_leap y); [lia |].
    assert (Hm : m = 1 \/ m = 2 \/ m = 3 \/ m = 4 \/ m = 5 \/ m = 6 \/ m = 7 \/ m = 8
                 \/ m = 9 \/ m = 10 \/ m = 11 \/ m = 12) by lia.
    repeat (destruct Hm as [-> | Hm]; [vm_compute; discriminate |]).
    subst m. vm_compute. discriminate. }
  unfold fromisoformat, parse_date.
  rewrite read_pad4 by lia. cbn [mbind option_bind].
  rewrite read_char_cons. cbn [mbind option_bind].
  rewrite read_pad2 by lia. cbn [mbind option_bind].
  rewrite read_char_cons. cbn [mbind option_bind].
  rewrite read_pad2 by lia. cbn [mbind option_bind].
  change (String "T" EmptyString +:+ ?X) with (String "T" X).
  unfold parse_time.
  rewrite read_pad2 by divlia. cbn [mbind option_bind].
  rewrite read_char_cons. cbn [mbind option_bind].
  rewrite read_pad2 by divlia. cbn [mbind option_bind].
  rewrite read_char_cons. cbn [mbind option_bind].
  rewrite read_pad2 by divlia. cbn [mbind option_bind].
  change (EmptyString +:+ EmptyString) with EmptyString.
  cbn [read_char parse_tz mbind option_bind]. unfold build.
  rewrite Hvalid. unfold valid_time.
  destruct (Z.ltb_spec (secs / 3600) 24); [| divlia].
  destruct (Z.ltb_spec (secs mod 3600 / 60) 60); [| divlia].
  destruct (Z.ltb_spec (secs mod 60) 60); [| divlia].
  cbn [andb]. f_equal. f_equal.
  unfold wall_of, us_per_second. rewrite Hord. subst secs rest days. divlia.
Qed.

End Calendar.

(** ** The constructor *)

Section Constructor.
Import Effects Cog.
Context {py : Python}.

Lemma init_instance (token : value) :
  __init__ token = <["TOKEN" := token]> (<["bot" := VBot]> ∅).
Proof. reflexivity. Qed.

Lemma init_lookup_config (token : value) (n : string) :
  In n config_names -> __init__ token !! n = None.
Proof.
  intros H. rewrite init_instance.
  cbn in H. repeat destruct H as [<- | H]; try contradiction;
    by simplify_map_eq.
Qed.

Lemma getattr_init_config (token : value) (n : string) :
  In n config_names ->
  getattr (__init__ token) n = Exc (AttributeError "FlightScheduler" n).
Proof.
  intros H. unfold getattr. rewrite (init_lookup_config token n H).
  cbn in H. repeat destruct H as [<- | H]; try contradiction; reflexivity.
Qed.

Lemma getattr_init_TOKEN (token : value) : getattr (__init__ token) "TOKEN" = Ok token.
Proof. unfold getattr. rewrite init_instance. by simplify_map_eq. Qed.

Lemma init_locals_config (token : value) (n : string) :
  In n config_names -> is_Some (locals (init_frame token) !! n).
Proof.
  intros H. cbn in H.
  repeat destruct H as [<- | H]; try contradiction;
    cbn; by simplify_map_eq.
Qed.

(** C1.  The constructor binds the six configuration names in its local
    frame only: none of them is in the instance dictionary, so reading any
    of them from [self] raises [AttributeError].  Hence, on the object the
    constructor returns, the refresher raises before its fetch, [flight start]
    and [flight cancel] raise before any call, and [flight create] makes one
    call only, the error notice to the invoker: no operation reaches a
    request or a channel with a configured identifier. *)
Theorem config_names_unbound (token : value) (o : Effects.oracle)
  (ctx : Context) (link flight_id : option string) :
  let self := __init__ token in
  (forall n, In n config_names ->
     self !! n = None
     /\ is_Some (locals (init_frame token) !! n)
     /\ getattr self n = Exc (AttributeError "FlightScheduler" n))
  /\ run o (update_webhook self)
     = ([], Raised (AttributeError "FlightScheduler" "GUILD_ID"))
  /\ run o (flight_start self ctx link)
     = ([], Raised (AttributeError "FlightScheduler" "REQUIRED_ROLE_ID"))
  /\ run o (flight_cancel self ctx flight_id)
     = ([], Raised (AttributeError "FlightScheduler" "REQUIRED_ROLE_ID"))
  /\ (exists a,
        fst (run o (flight_create self ctx))
        = [Ev (CtxSend (error_embed
                          (exn_str (AttributeError "FlightScheduler" "REQUIRED_ROLE_ID")))) a]).
Proof.
  intros self. subst self. split; [| split; [| split; [| split]]].
  - intros n Hn. split; [| split].
    + by apply init_lookup_config.
    + by apply init_locals_config.
    + by apply getattr_init_config.
  - unfold update_webhook. rewrite getattr_init_TOKEN.
    rewrite (getattr_init_config token "GUILD_ID") by (cbn; tauto).
    reflexivity.
  - unfold flight_start, lacks_role.
    rewrite (getattr_init_config token "REQUIRED_ROLE_ID") by (cbn; tauto).
    reflexivity.
  - unfold flight_cancel, lacks_role.
    rewrite (getattr_init_config token "REQUIRED_ROLE_ID") by (cbn; tauto).
    reflexivity.
  - unfold flight_create, lacks_role, run.
    rewrite (getattr_init_config token "REQUIRED_ROLE_ID") by (cbn; tauto).
    rewrite exec_try_except. prog_simpl. cbn [exec is_Exception]. rewrite exec_await.
    eexists. reflexivity.
Qed.

End Constructor.

(** ** The periodic refresher *)

Section Refresher.
Import Effects Cog Observe May Selection.
Context {py : Python}.

Lemma filter_upcoming_emits (P : entry -> Prop) (events : list ScheduledEvent) :
  (forall x, P (Ev UtcNow x)) -> emits_only P (filter_upcoming events).
Proof.
  intros HP. induction events as [| e es IH]; cbn [filter_upcoming].
  - constructor.
  - repeat emits_step; auto.
Qed.

(** C7.  When the fetch of a tick is answered with a status other than 200,
    the tick makes exactly two calls, the fetch and one warning to the log,
    and returns: the webhook message is not patched, no channel is written,
    and no exception leaves the tick. *)
Theorem fetch_failure_is_soft (self : gmap string value) (o : oracle) (status : Z) :
  (exists e, In e (fst (run o (update_webhook self))) /\ fetched_status e = Some status) ->
  status <> 200 ->
  exists url h,
    run o (update_webhook self)
    = ([Ev (HttpGet url h) (Ok status);
        Ev (LogWarning ("Failed to fetch scheduled events, status " +:+ Str.of_Z status)) tt],
       Returned tt)
    /\ Forall (fun e => is_patch e = false /\ is_channel_send e = false)
         (fst (run o (update_webhook self))).
Proof.
  intros (e & Hin & He) Hne. unfold run, update_webhook in *.
  destruct (getattr self "TOKEN") as [token | ex]; [| destruct Hin].
  destruct (getattr self "GUILD_ID") as [guild | ex]; [| destruct Hin].
  prog_simpl. prog_simpl in Hin.
  rewrite exec_bind, exec_await in *.
  match goal with
  | |- context [o _ 0%nat ?ev] => destruct (o _ 0%nat ev) as [st | ex] eqn:E
  end; cbn [result_of length Nat.add] in *.
  - destruct (Z.eqb_spec st 200) as [-> | Hst]; cbn [negb] in *.
    + exfalso.
      match type of Hin with
      | context [exec o 1%nat ?p] =>
          assert (Hrest : emits_only (fun e => fetched_status e = None) p)
            by (unfold get_channel; repeat emits_step;
                try reflexivity; apply filter_upcoming_emits; reflexivity);
          pose proof (emits_only_exec _ _ Hrest o 1%nat) as HF;
          destruct (exec o 1%nat p) as [tr r]
      end.
      cbn [fst app] in *. destruct Hin as [<- | Hin].
      * cbn in He. congruence.
      * rewrite Forall_forall in HF. apply list_elem_of_In in Hin.
        rewrite (HF e Hin) in He. discriminate.
    + rewrite exec_call in *. cbn [fst app] in *.
      assert (st = status) as ->.
      { destruct Hin as [<- | [<- | []]]; cbn in He; congruence. }
      match goal with
      | |- context [o unit 1%nat ?ev] => destruct (o unit 1%nat ev)
      end.
      eexists _, _. split; [reflexivity |].
      repeat constructor.
  - exfalso. cbn in Hin. destruct Hin as [<- | []]. cbn in He. discriminate.
Qed.

Lemma filter_upcoming_exec (o : oracle) (events : list ScheduledEvent) :
  Forall (fun e => is_Some (start_wall e)) events ->
  forall n,
    exec o n (filter_upcoming events)
    = (map (fun i => Ev UtcNow (o Z i UtcNow)) (seq n (length events)),
       Returned (retained (fun i => o Z i UtcNow) n events)).
Proof.
  induction 1 as [| e es [w Hw] _ IH]; intros n; [reflexivity |].
  cbn [filter_upcoming retained length seq map].
  unfold starts_after. rewrite Hw. unfold start_wall in Hw.
  destruct (read_iso _) as [[w' [off |]] |]; try discriminate.
  injection Hw as ->. prog_simpl.
  rewrite exec_bind, exec_call. cbn [length Nat.add].
  unfold Datetime.gt, Datetime.naive. cbn [Datetime.tz Datetime.wall]. prog_simpl.
  rewrite exec_bind, Nat.add_1_r, IH. cbn [length Nat.add app].
  change (exec o ?m (mret ?x)) with (@nil entry, Returned x).
  cbn iota. by rewrite app_nil_r.
Qed.

Lemma retained_constant_clock (clock : nat -> Z) (now : Z) (events : list ScheduledEvent) :
  (forall i, clock i = now) ->
  forall n, retained clock n events = List.filter (starts_after now) events.
Proof.
  intros Hc. induction events as [| e es IH]; intros n; [reflexivity |].
  cbn [retained List.filter]. by rewrite Hc, IH.
Qed.

(** The run of a tick that fetched [events], all of them readable, on a cog
    whose webhook is configured: the fetch, the reading of its body, one
    reading of the clock for each item, and the patch, which carries the
    rendering of the retained items, sorted. *)
Lemma update_webhook_run (self : gmap string value) (o : oracle)
  (events : list ScheduledEvent) (wurl wmid : value) :
  getattr self "WEBHOOK_URL" = Ok wurl ->
  getattr self "WEBHOOK_MESSAGE_ID" = Ok wmid ->
  Forall (fun e => is_Some (start_wall e)) events ->
  (exists e, In e (fst (run o (update_webhook self)))
             /\ fetched_events e = Some events) ->
  exists url h a rest,
    fst (run o (update_webhook self))
    = Ev (HttpGet url h) (Ok 200)
      :: Ev JsonEvents (Ok events)
      :: (map (fun i => Ev UtcNow (o Z i UtcNow)) (seq 2 (length events))
          ++ Ev (HttpPatch (value_str wurl +:+ "/messages/" +:+ value_str wmid)
                   [render (sorted ev_scheduled_start_time
                              (retained (fun i => o Z i UtcNow) 2 events))]
                   [("Content-Type", "application/json")]) a
             :: rest)%list
    /\ Forall (fun e => is_patch e = false) rest.
Proof.
  intros Hurl Hmid Hall (e & Hin & He). unfold run, update_webhook in *.
  destruct (getattr self "TOKEN") as [token | ex]; [| destruct Hin].
  destruct (getattr self "GUILD_ID") as [guild | ex]; [| destruct Hin].
  prog_simpl. prog_simpl in Hin.
  rewrite exec_bind, exec_await in *.
  match goal with
  | |- context [o _ 0%nat ?ev] => destruct (o _ 0%nat ev) as [st | ex]
  end; cbn [result_of length Nat.add] in *; [| no_such_entry Hin He].
  destruct (Z.eqb_spec st 200) as [Hst | Hst]; cbn [negb] in *;
    [subst st | rewrite exec_call in Hin; no_such_entry Hin He].
  rewrite exec_bind, exec_await in *.
  destruct (o _ 1%nat JsonEvents) as [evs | ex];
    cbn [result_of length Nat.add] in *; [| no_such_entry Hin He].
  assert (evs = events) as ->.
  { match type of Hin with
    | context [exec o 2%nat ?p] =>
        assert (Hrest : emits_only (fun e => fetched_events e = None) p)
          by (unfold get_channel;
              repeat first [ apply emits_only_bind;
                             [apply filter_upcoming_emits; reflexivity | intros ?]
                           | emits_step ];
              reflexivity);
        pose proof (emits_only_exec _ _ Hrest o 2%nat) as HF;
        destruct (exec o 2%nat p) as [tr r]
    end.
    cbn [fst app] in *. rewrite Forall_forall in HF.
    destruct Hin as [Heq | [Heq | Hin]].
    - rewrite <- Heq in He. discriminate.
    - rewrite <- Heq in He. cbn in He. congruence.
    - apply list_elem_of_In in Hin. rewrite (HF e Hin) in He. discriminate. }
  clear Hin He e.
  rewrite exec_bind, (filter_upcoming_exec o events Hall).
  rewrite Hurl, Hmid. prog_simpl. cbv zeta.
  rewrite exec_bind, exec_await.
  match goal with
  | |- context [Ev (HttpPatch ?u ?ds ?hh) (o _ ?n _)] =>
      destruct (o _ n (HttpPatch u ds hh)) as [st | ex]
  end; cbn [result_of].
  - match goal with
    | |- context [exec o ?n ?p] =>
        assert (Hrest : emits_only (fun e => is_patch e = false) p)
          by (unfold get_channel; repeat emits_step; reflexivity);
        pose proof (emits_only_exec _ _ Hrest o n) as HF;
        destruct (exec o n p) as [tr r]
    end.
    cbn [fst app] in *. eexists _, _, _, _. split; [reflexivity | exact HF].
  - cbn [fst app]. eexists _, _, _, _. split; [reflexivity | constructor].
Qed.

Lemma field_count_firstn {A B : Type} (f : A -> B) (l : list A) :
  length (map f (firstn 2 l)) = Nat.min (length l) 2.
Proof. rewrite length_map, length_firstn. lia. Qed.

(** C6.  A tick that fetched [events], all of them readable, on a cog whose
    webhook is configured, patches the webhook message once, with one embed.
    With [upcoming] the retained items in ascending order of their start
    texts (equal texts in fetch order), the embed is the fixed placeholder
    when [upcoming] is empty, a description and no fields; otherwise it has
    no description and its fields are the first [min (length, 2)] items of
    [upcoming], in order, each with the name of the item and its description
    (the empty text when the item has none, [null] when it holds [null]).
    The number of fields is [min (length, 2)], never above 2. *)
Theorem render_first_page (self : gmap string value) (o : oracle)
  (events : list ScheduledEvent) (wurl wmid : value) :
  getattr self "WEBHOOK_URL" = Ok wurl ->
  getattr self "WEBHOOK_MESSAGE_ID" = Ok wmid ->
  Forall (fun e => is_Some (start_wall e)) events ->
  (exists e, In e (fst (run o (update_webhook self)))
             /\ fetched_events e = Some events) ->
  let kept := retained (fun i => o Z i UtcNow) 2 events in
  exists upcoming embed pre a rest,
    Permutation upcoming kept
    /\ StronglySorted text_le upcoming
    /\ (forall k, with_text k upcoming = with_text k kept)
    /\ fst (run o (update_webhook self))
       = (pre ++ Ev (HttpPatch (value_str wurl +:+ "/messages/" +:+ value_str wmid)
                       [embed] [("Content-Type", "application/json")]) a
              :: rest)%list
    /\ Forall (fun e => is_patch e = false) pre
    /\ Forall (fun e => is_patch e = false) rest
    /\ embed
       = {| d_title := "Upcoming Flights";
            d_description := match upcoming with
                             | [] => Some "No flights scheduled."
                             | _ => None
                             end;
            d_fields := match upcoming with
                        | [] => None
                        | _ => Some (map (fun e => (ev_name e,
                                                    match ev_description e with
                                                    | Absent => Some EmptyString
                                                    | Null => None
                                                    | Given s => Some s
                                                    end))
                                       (firstn 2 upcoming))
                        end;
            d_color := 15065566;
            d_footer := "Updates every 5 min" |}
    /\ field_count embed = Nat.min (length upcoming) 2
    /\ (field_count embed <= 2)%nat.
Proof.
  intros Hurl Hmid Hall Hfetch kept.
  destruct (update_webhook_run self o events wurl wmid Hurl Hmid Hall Hfetch)
    as (url & h & a & rest & Htr & Hrest).
  fold kept in Htr.
  exists (sorted ev_scheduled_start_time kept), (render (sorted ev_scheduled_start_time kept)),
    (Ev (HttpGet url h) (Ok 200) :: Ev JsonEvents (Ok events)
     :: map (fun i => Ev UtcNow (o Z i UtcNow)) (seq 2 (length events))), a, rest.
  split; [apply sorted_perm |].
  split; [apply (sorted_sorted ev_scheduled_start_time) |].
  split; [intros k; apply (sorted_stable ev_scheduled_start_time) |].
  split; [exact Htr |].
  split.
  { constructor; [reflexivity |]. constructor; [reflexivity |].
    apply Forall_forall. intros x Hx.
    apply list_elem_of_In, in_map_iff in Hx. destruct Hx as (i & <- & _). reflexivity. }
  split; [exact Hrest |].
  generalize (sorted ev_scheduled_start_time kept). intros upcoming.
  split; [destruct upcoming; reflexivity |].
  assert (field_count (render upcoming) = Nat.min (length upcoming) 2) as ->.
  { destruct upcoming as [| x l]; [reflexivity |].
    unfold field_count, render, page_size. cbn [d_fields].
    apply field_count_firstn. }
  split; [reflexivity | lia].
Qed.

(** C2, as the code has it.  A tick that fetched [events], all of them with
    a start text that, without its last character, reads as a naive date and
    time, on a cog whose webhook is configured, makes these calls: the fetch,
    the reading of its body, one reading of the UTC clock for each item in
    fetch order, and the patch of the webhook message.  It retains exactly
    the items that start strictly after the clock reading taken for them
    (one instant for all of them when the clock stands still during the
    tick).  The patch lists the names of the first two items of [upcoming],
    the retained items ordered ascending by the TEXT of
    [scheduled_start_time], code point by code point, items with equal text
    keeping their fetch order. *)
Theorem refresher_selection (self : gmap string value) (o : oracle)
  (events : list ScheduledEvent) (wurl wmid : value) :
  getattr self "WEBHOOK_URL" = Ok wurl ->
  getattr self "WEBHOOK_MESSAGE_ID" = Ok wmid ->
  Forall (fun e => is_Some (start_wall e)) events ->
  (exists e, In e (fst (run o (update_webhook self)))
             /\ fetched_events e = Some events) ->
  let clock := fun i => o Z i UtcNow in
  let kept := retained clock 2 events in
  exists upcoming embed url h a rest,
    fst (run o (update_webhook self))
    = Ev (HttpGet url h) (Ok 200)
      :: Ev JsonEvents (Ok events)
      :: (map (fun i => Ev UtcNow (clock i)) (seq 2 (length events))
          ++ Ev (HttpPatch (value_str wurl +:+ "/messages/" +:+ value_str wmid)
                   [embed] [("Content-Type", "application/json")]) a
             :: rest)%list
    /\ Forall (fun e => is_patch e = false) rest
    /\ field_names embed = map ev_name (firstn 2 upcoming)
    /\ Permutation upcoming kept
    /\ StronglySorted text_le upcoming
    /\ (forall k, with_text k upcoming = with_text k kept)
    /\ (forall now, (forall i, clock i = now) ->
          kept = List.filter (starts_after now) events).
Proof.
  intros Hurl Hmid Hall Hfetch clock kept.
  destruct (update_webhook_run self o events wurl wmid Hurl Hmid Hall Hfetch)
    as (url & h & a & rest & Htr & Hrest).
  exists (sorted ev_scheduled_start_time kept), (render (sorted ev_scheduled_start_time kept)),
    url, h, a, rest.
  split; [exact Htr |]. split; [exact Hrest |].
  split.
  { generalize (sorted ev_scheduled_start_time kept). intros upcoming.
    destruct upcoming as [| x l]; [reflexivity |].
    unfold field_names, render, page_size, render_field. cbn [d_fields].
    by rewrite map_map. }
  split; [apply sorted_perm |].
  split; [apply (sorted_sorted ev_scheduled_start_time) |].
  split; [intros k; apply (sorted_stable ev_scheduled_start_time) |].
  intros now Hc. by apply retained_constant_clock.
Qed.

End Refresher.

Section RefresherCases.
Import Effects Cog Observe May Selection.
#[local] Existing Instance Samples.cpython_3_10.

(** In the sample environment the fetch is answered with 503. *)
Lemma fetch_failure_is_soft_witness :
  exists url h,
    run Samples.unavailable (update_webhook Samples.configured)
    = ([Ev (HttpGet url h) (Ok 503);
        Ev (LogWarning ("Failed to fetch scheduled events, status " +:+ Str.of_Z 503)) tt],
       Returned tt)
    /\ Forall (fun e => is_patch e = false /\ is_channel_send e = false)
         (fst (run Samples.unavailable (update_webhook Samples.configured))).
Proof.
  apply (fetch_failure_is_soft Samples.configured Samples.unavailable 503).
  - eexists. split; [left; reflexivity | reflexivity].
  - lia.
Defined.

Lemma render_first_page_witness :
  let o := Samples.busy_evening in
  let kept := retained (fun i => o Z i UtcNow) 2 Samples.four_flights in
  exists upcoming embed pre a rest,
    Permutation upcoming kept
    /\ StronglySorted text_le upcoming
    /\ (forall k, with_text k upcoming = with_text k kept)
    /\ fst (run o (update_webhook Samples.configured))
       = (pre ++ Ev (HttpPatch (value_str (VStr "https://discord.com/api/webhooks/1/x")
                                +:+ "/messages/" +:+ value_str (VStr "1290778370749104263"))
                       [embed] [("Content-Type", "application/json")]) a
              :: rest)%list
    /\ Forall (fun e => is_patch e = false) pre
    /\ Forall (fun e => is_patch e = false) rest
    /\ embed
       = {| d_title := "Upcoming Flights";
            d_description := match upcoming with
                             | [] => Some "No flights scheduled."
                             | _ => None
                             end;
            d_fields := match upcoming with
                        | [] => None
                        | _ => Some (map (fun e => (ev_name e,
                                                    match ev_description e with
                                                    | Absent => Some EmptyString
                                                    | Null => None
                                                    | Given s => Some s
                                                    end))
                                       (firstn 2 upcoming))
                        end;
            d_color := 15065566;
            d_footer := "Updates every 5 min" |}
    /\ field_count embed = Nat.min (length upcoming) 2
    /\ (field_count embed <= 2)%nat.
Proof.
  apply (render_first_page Samples.configured Samples.busy_evening Samples.four_flights
           (VStr "https://discord.com/api/webhooks/1/x") (VStr "1290778370749104263")).
  - reflexivity.
  - reflexivity.
  - repeat constructor; eexists; vm_compute; reflexivity.
  - eexists. split; [right; left; reflexivity | reflexivity].
Defined.

Lemma refresher_selection_witness :
  let o := Samples.two_flights in
  let events := [Samples.on_the_second; Samples.half_past] in
  let clock := fun i => o Z i UtcNow in
  let kept := retained clock 2 events in
  exists upcoming embed url h a rest,
    fst (run o (update_webhook Samples.configured))
    = Ev (HttpGet url h) (Ok 200)
      :: Ev JsonEvents (Ok events)
      :: (map (fun i => Ev UtcNow (clock i)) (seq 2 (length events))
          ++ Ev (HttpPatch (value_str (VStr "https://discord.com/api/webhooks/1/x")
                            +:+ "/messages/" +:+ value_str (VStr "1290778370749104263"))
                   [embed] [("Content-Type", "application/json")]) a
             :: rest)%list
    /\ Forall (fun e => is_patch e = false) rest
    /\ field_names embed = map ev_name (firstn 2 upcoming)
    /\ Permutation upcoming kept
    /\ StronglySorted text_le upcoming
    /\ (forall k, with_text k upcoming = with_text k kept)
    /\ (forall now, (forall i, clock i = now) ->
          kept = List.filter (starts_after now) events).
Proof.
  apply (refresher_selection Samples.configured Samples.two_flights
           [Samples.on_the_second; Samples.half_past]
           (VStr "https://discord.com/api/webhooks/1/x") (VStr "1290778370749104263")).
  - reflexivity.
  - reflexivity.
  - repeat constructor; eexists; vm_compute; reflexivity.
  - eexists. split; [right; left; reflexivity | reflexivity].
Defined.

(** C2 as stated fails: of two retained items half a second apart, the later
    one is listed first, because its text is the smaller one ("." sorts
    before "Z"). *)
Lemma refresher_order_counterexample :
  let events := [Samples.on_the_second; Samples.half_past] in
  let kept := List.filter (starts_after Samples.today) events in
  kept = events
  /\ start_wall Samples.on_the_second = Some 64029052800000000
  /\ start_wall Samples.half_past = Some 64029052800500000
  /\ sorted ev_scheduled_start_time kept = [Samples.half_past; Samples.on_the_second]
  /\ time_ascending (sorted ev_scheduled_start_time kept) = false
  /\ map patched (fst (run Samples.two_flights (update_webhook Samples.configured)))
     = [None; None; None; None;
        Some [ {| d_title := "Upcoming Flights";
                  d_description := None;
                  d_fields := Some [("EA302", Some "desc"); ("EA301", Some "desc")];
                  d_color := 15065566;
                  d_footer := "Updates every 5 min" |} ];
        None].
Proof. vm_compute. repeat split. Qed.

End RefresherCases.

(** ** Minutes until the lock *)

Section Minutes.
Import Effects Cog.

Lemma add_wall (d d' : Datetime.datetime) (td : Datetime.timedelta) :
  Datetime.add d td = Ok d' ->
  d' = Datetime.DT (Datetime.wall d + td) (Datetime.tz d).
Proof.
  unfold Datetime.add. cbv zeta.
  destruct (Datetime.in_range _); intros H; inversion H; reflexivity.
Qed.

Lemma minutes_until_lock_value (lock_time now : Datetime.datetime) (td : Datetime.timedelta) :
  Datetime.sub lock_time now = Ok td ->
  minutes_until_lock lock_time now
  = Ok (Z.max 0 (Float64.trunc (Float64.div_int (Datetime.total_seconds td) 60))).
Proof. intros H. unfold minutes_until_lock. rewrite H. reflexivity. Qed.

Lemma minutes_until_lock_nonneg (lock_time now : Datetime.datetime) (m : Z) :
  minutes_until_lock lock_time now = Ok m -> 0 <= m.
Proof.
  unfold minutes_until_lock. destruct (Datetime.sub lock_time now); [| discriminate].
  intros [= <-]. lia.
Qed.

(** C3, as the code has it.  With [lock_time = start_time + 15 minutes]
    (900 000 000 microseconds on the same clock) and [lock_time - now] below
    2^34 seconds (about 544 years), the computed value is
    [max(0, floor((lock_time - now) in minutes))]; and whatever the two
    instants are, past or future, a computed value is never negative. *)
Theorem minutes_until_lock_floor
  (start_time lock_time now : Datetime.datetime) (td : Datetime.timedelta) :
  Datetime.add start_time (Datetime.minutes 15) = Ok lock_time ->
  Datetime.sub lock_time now = Ok td ->
  td < 2 ^ 34 * 1000000 ->
  lock_time = Datetime.DT (Datetime.wall start_time + 900000000) (Datetime.tz start_time)
  /\ minutes_until_lock lock_time now = Ok (Z.max 0 (td / 60000000))
  /\ (forall l n m, minutes_until_lock l n = Ok m -> 0 <= m).
Proof.
  intros Hadd Hsub Hbound.
  split; [exact (add_wall _ _ _ Hadd) |].
  split; [| apply minutes_until_lock_nonneg].
  rewrite (minutes_until_lock_value _ _ _ Hsub). f_equal.
  unfold Datetime.total_seconds, Datetime.us_per_second.
  destruct (Z.lt_trichotomy td 0) as [Hneg | [-> | Hpos]].
  - assert (Hq : td / 60000000 < 0) by (apply Z.div_lt_upper_bound; lia).
    pose proof (rn_div_nonpos td 1000000 ltac:(lia) ltac:(lia)) as Hx.
    apply Z.leb_le in Hx.
    pose proof (trunc_nonpos _ (div_int_nonpos _ 60 ltac:(lia) Hx)).
    lia.
  - reflexivity.
  - by rewrite (minutes_exact td Hpos Hbound).
Qed.

Lemma minutes_until_lock_floor_witness :
  Samples.lock_2030 = Datetime.DT (Samples.new_year + 900000000) (Some 0)
  /\ minutes_until_lock Samples.lock_2030 (Datetime.aware_utc Samples.today)
     = Ok (Z.max 0 (99792900000000 / 60000000))
  /\ (forall l n m, minutes_until_lock l n = Ok m -> 0 <= m).
Proof.
  apply (minutes_until_lock_floor
           (Datetime.DT Samples.new_year (Some 0))
           Samples.lock_2030 (Datetime.aware_utc Samples.today) 99792900000000).
  - reflexivity.
  - reflexivity.
  - reflexivity.
Defined.

(** C3 as stated fails for distant dates: one microsecond short of 2^29
    minutes the two roundings reach the next minute.  The instants are
    2026-11-03T00:00:00Z and 3047-08-10T00:31:59.999999Z, the lock time of an
    event starting at 3047-08-10T00:16:59.999999Z. *)
Lemma minutes_until_lock_counterexample :
  let now := Datetime.aware_utc Samples.today in
  let start_time := Datetime.DT 96141514619999999 (Some 0) in
  let lock_time := Datetime.DT 96141515519999999 (Some 0) in
  Datetime.fromisoformat "3047-08-10T00:16:59.999999+00:00" = Some start_time
  /\ Datetime.add start_time (Datetime.minutes 15) = Ok lock_time
  /\ Datetime.sub lock_time now = Ok 32212254719999999
  /\ minutes_until_lock lock_time now = Ok 536870912
  /\ Z.max 0 (32212254719999999 / 60000000) = 536870911.
Proof. vm_compute. repeat split. Qed.

End Minutes.

(** ** The delayed notifier *)

Section Notifier.
Import Effects Cog Observe May History Notification.
Context {py : Python}.

(** C8, as the code has it.  When the event read holds no [null] under
    [entity_metadata] or [description], and its description, stripped (the
    empty text when the key is absent), does not match the pattern,
    [flight start] makes three calls: the fetch, the reading of its body,
    and one reply to the invoker carrying the parse-error notice.  No
    announcement is sent and no delayed action is scheduled. *)
Theorem parse_failure_is_reported (self : gmap string value) (o : oracle)
  (ctx : Context) (link : option string) (ev : ScheduledEvent)
  (loc : option string) (d : string) :
  (exists e, In e (fst (run o (flight_start self ctx link)))
             /\ fetched_event e = Some ev) ->
  roblox_link_of ev = Ok loc ->
  description_of ev = Ok d ->
  extract d = None ->
  exists url h a,
    run o (flight_start self ctx link)
    = ([Ev (HttpGet url h) (Ok 200);
        Ev JsonEvent (Ok ev);
        Ev (CtxReply (error_embed "Failed to parse event description for flight info.")) a],
       result_of a)
    /\ Forall (fun e => is_channel_send e = false /\ is_create_task e = false)
         (fst (run o (flight_start self ctx link))).
Proof.
  intros (e & Hin & He) Hloc Hd Hx. unfold run, flight_start, lacks_role in *.
  destruct (getattr self "REQUIRED_ROLE_ID") as [role | ex]; [| destruct Hin].
  prog_simpl. prog_simpl in Hin.
  destruct (negb (existsb (value_eqb role) (map VInt (author_roles ctx)))).
  { rewrite exec_await in Hin. no_such_entry Hin He. }
  destruct link as [[| c0 link] |];
    try (rewrite exec_await in Hin; no_such_entry Hin He).
  destruct (getattr self "GUILD_ID") as [guild | ex]; [| destruct Hin].
  destruct (getattr self "TOKEN") as [token | ex]; [| destruct Hin].
  prog_simpl. prog_simpl in Hin.
  rewrite exec_bind, exec_await in *.
  match goal with
  | |- context [o _ 0%nat ?ev] => destruct (o _ 0%nat ev) as [st | ex]
  end; cbn [result_of length Nat.add] in *; [| no_such_entry Hin He].
  destruct (Z.eqb_spec st 200) as [Hst | Hst]; cbn [negb] in *;
    [subst st | rewrite exec_await in Hin; no_such_entry Hin He].
  rewrite exec_bind, exec_await in *.
  destruct (o _ 1%nat JsonEvent) as [ev' | ex];
    cbn [result_of length Nat.add] in *; [| no_such_entry Hin He].
  assert (ev' = ev) as ->.
  { match type of Hin with
    | context [exec o 2%nat ?p] =>
        assert (Hrest : emits_only (fun e => fetched_event e = None) p)
          by (unfold get_channel; repeat emits_step; reflexivity);
        pose proof (emits_only_exec _ _ Hrest o 2%nat) as HF;
        destruct (exec o 2%nat p) as [tr r]
    end.
    cbn [fst app] in *. rewrite Forall_forall in HF.
    destruct Hin as [<- | [<- | Hin]].
    + cbn in He. discriminate.
    + cbn in He. by injection He.
    + apply list_elem_of_In in Hin. rewrite (HF e Hin) in He. discriminate. }
  rewrite Hloc, Hd. prog_simpl. rewrite Hx, exec_await.
  eexists _, _, _. split; [reflexivity |]. repeat constructor.
Qed.

(** The run of the delayed action, call by call. *)
Lemma send_checkin_closed_run (c : Closure) (o : oracle) (off : Z) :
  Datetime.tz (c_lock_time c) = Some off ->
  let now := o Z 0%nat NowUtc in
  let delay := Datetime.total_seconds (Datetime.wall (c_lock_time c) - off - (now - 0)) in
  let closed := ChannelSend (c_chan c)
                  (Text (closed_message (c_departure c) (c_flight_number c) (c_arrival c))) in
  run o (send_checkin_closed c)
  = match o _ 1%nat (Sleep delay) with
    | Exc e => ([Ev NowUtc now; Ev (Sleep delay) (Exc e)], Raised e)
    | Ok u =>
        match o _ 2%nat (MessageDelete (c_msg c)) with
        | Ok v =>
            ([Ev NowUtc now; Ev (Sleep delay) (Ok u); Ev (MessageDelete (c_msg c)) (Ok v);
              Ev closed (o _ 3%nat closed)],
             result_of (x ← o _ 3%nat closed; mret tt))
        | Exc e =>
            if is_HTTPException e then
              ([Ev NowUtc now; Ev (Sleep delay) (Ok u);
                Ev (MessageDelete (c_msg c)) (Exc e);
                Ev closed (o _ 3%nat closed)],
               result_of (x ← o _ 3%nat closed; mret tt))
            else
              ([Ev NowUtc now; Ev (Sleep delay) (Ok u);
                Ev (MessageDelete (c_msg c)) (Exc e)],
               Raised e)
        end
    end.
Proof.
  intros Htz now delay closed. unfold run, send_checkin_closed.
  rewrite exec_bind, exec_call. cbn [length Nat.add].
  unfold Datetime.sub, Datetime.aware_utc. rewrite Htz.
  cbn [Datetime.tz Datetime.wall]. prog_simpl.
  rewrite exec_bind, exec_await. fold now. fold delay.
  destruct (o _ 1%nat (Sleep delay)) as [u | e]; cbn [result_of length Nat.add app];
    [| reflexivity].
  rewrite exec_bind, exec_try_except, exec_await.
  destruct (o _ 2%nat (MessageDelete (c_msg c))) as [v | e];
    cbn [result_of length Nat.add app].
  - rewrite exec_bind, exec_await. fold closed.
    destruct (o _ 3%nat closed); reflexivity.
  - destruct (is_HTTPException e); [| reflexivity].
    cbn [exec mret prog_ret length Nat.add app].
    rewrite exec_bind, exec_await. fold closed.
    destruct (o _ 3%nat closed); reflexivity.
Qed.

Lemma minutes_until_lock_aware (lock_time : Datetime.datetime) (now m : Z) :
  minutes_until_lock lock_time (Datetime.aware_utc now) = Ok m ->
  exists off, Datetime.tz lock_time = Some off.
Proof.
  unfold minutes_until_lock, Datetime.sub. cbn.
  destruct (Datetime.tz lock_time) as [off |]; [eauto | discriminate].
Qed.

Lemma minutes_until_lock_passed (lock_time : Datetime.datetime) (off now : Z) :
  Datetime.tz lock_time = Some off ->
  Datetime.wall lock_time - off <= now ->
  minutes_until_lock lock_time (Datetime.aware_utc now) = Ok 0.
Proof.
  intros Htz Hle. unfold minutes_until_lock, Datetime.sub, Datetime.aware_utc.
  rewrite Htz. cbn [Datetime.tz Datetime.wall]. prog_simpl. f_equal.
  unfold Datetime.total_seconds, Datetime.us_per_second.
  pose proof (rn_div_nonpos (Datetime.wall lock_time - off - (now - 0)) 1000000
                ltac:(lia) ltac:(lia)) as Hx.
  apply Z.leb_le in Hx.
  pose proof (trunc_nonpos _ (div_int_nonpos _ 60 ltac:(lia) Hx)).
  lia.
Qed.

(** What [flight start] does around the scheduling of the delayed action,
    in every run.  The action is scheduled after five calls (the fetch
    answered 200, the reading of the event, one reading of the clock, the
    lookup of the announcement channel and the announcement), and it holds
    the message and the channel of that announcement and the fields and the
    lock time read from that event; a delivered announcement is followed by
    the scheduling, and the scheduling by the confirmation to the invoker;
    nothing is scheduled twice. *)
Lemma flight_start_protocol (self : gmap string value) (ctx : Context)
  (link : option string) :
  holds
    (fun (past : trace) (e : entry) =>
       match e with
       | Ev (CreateTask c) _ =>
           exists url h ev now idv minutes loc d start,
             past = [Ev (ChannelSend (c_chan c)
                           (Text (open_message (c_departure c) (c_arrival c)
                                    (c_flight_number c) minutes (link_text loc))))
                        (Ok (c_msg c));
                     Ev (GetChannel idv) (Some (c_chan c));
                     Ev NowUtc now;
                     Ev JsonEvent (Ok ev);
                     Ev (HttpGet url h) (Ok 200)]
             /\ roblox_link_of ev = Ok loc
             /\ description_of ev = Ok d
             /\ extract d = Some (c_flight_number c, c_departure c, c_arrival c)
             /\ read_iso (Str.replace_char "Z" "+00:00" (ev_scheduled_start_time ev))
                = Some start
             /\ Datetime.add start (Datetime.minutes 15) = Ok (c_lock_time c)
             /\ minutes_until_lock (c_lock_time c) (Datetime.aware_utc now) = Ok minutes
       | _ => True
       end
       /\ match past with
          | Ev (ChannelSend _ _) (Ok _) :: rest =>
              if existsb is_create_task rest then True
              else exists c u, e = Ev (CreateTask c) u
          | Ev (CreateTask _) _ :: _ :: _ :: _ :: Ev JsonEvent (Ok ev) :: _ =>
              exists a,
                e = Ev (CtxReply (Rich (embed "Flight Started"
                                          (Some ("Flight '" +:+ ev_name ev +:+ "' started."))
                                          green))) a
          | _ => True
          end
       /\ (is_create_task e = true -> existsb is_create_task past = false))
    (fun (past : trace) (r : result unit) =>
       match past with
       | Ev (ChannelSend _ _) (Ok _) :: rest =>
           if existsb is_create_task rest then True else False
       | Ev (CreateTask _) _ :: _ => False
       | _ => True
       end)
    [] (flight_start self ctx link).
Proof.
  unfold flight_start, lacks_role, get_channel, lock_offset.
  holds_steps; cbn [is_create_task existsb orb]; try exact I.
  all: try (split; [| split]).
  all: try exact I; try discriminate; try reflexivity.
  all: try (eexists; reflexivity); try (eexists _, _; reflexivity).
  match goal with
  | H : negb (?st =? 200) = false |- _ =>
      apply negb_false_iff, Z.eqb_eq in H; subst st
  end.
  subst. cbn [c_chan c_msg c_departure c_arrival c_flight_number c_lock_time].
  eexists _, _, _, _, _, _, _, _, _.
  repeat (split; [eassumption || reflexivity |]). eassumption.
Qed.

Lemma no_second_task (tr pre post : trace) (c : Closure) (u : unit) :
  (forall pre' e post',
     tr = (pre' ++ e :: post')%list ->
     is_create_task e = true -> existsb is_create_task (rev pre') = false) ->
  tr = (pre ++ Ev (CreateTask c) u :: post)%list ->
  existsb is_create_task post = false.
Proof.
  intros H Htr. destruct (existsb is_create_task post) eqn:E; [exfalso | reflexivity].
  apply existsb_exists in E. destruct E as (e & Hin & He).
  apply in_split in Hin. destruct Hin as (l1 & l2 & ->).
  specialize (H (pre ++ Ev (CreateTask c) u :: l1)%list e l2).
  rewrite <- app_assoc in H. specialize (H Htr He).
  rewrite existsb_rev, existsb_app in H. cbn in H.
  rewrite orb_true_r in H. discriminate.
Qed.

(** The run of the delayed action when the wait completes and the deletion
    succeeds or fails with a [discord.HTTPException]. *)
Lemma send_checkin_closed_passes (c : Closure) (o : oracle) (off : Z) :
  Datetime.tz (c_lock_time c) = Some off ->
  let now := o Z 0%nat NowUtc in
  let delay := Datetime.total_seconds (Datetime.wall (c_lock_time c) - off - (now - 0)) in
  let closed := ChannelSend (c_chan c)
                  (Text (closed_message (c_departure c) (c_flight_number c) (c_arrival c))) in
  o _ 1%nat (Sleep delay) = Ok tt ->
  passed_over (o _ 2%nat (MessageDelete (c_msg c))) ->
  run o (send_checkin_closed c)
  = ([Ev NowUtc now;
      Ev (Sleep delay) (Ok tt);
      Ev (MessageDelete (c_msg c)) (o _ 2%nat (MessageDelete (c_msg c)));
      Ev closed (o _ 3%nat closed)],
     result_of (x ← o _ 3%nat closed; mret tt)).
Proof.
  intros Htz now delay closed Hsleep Hdel.
  rewrite (send_checkin_closed_run c o off Htz).
  fold now. fold delay. fold closed. rewrite Hsleep.
  destruct (o _ 2%nat (MessageDelete (c_msg c))) as [v | e]; [reflexivity |].
  cbn in Hdel. by rewrite Hdel.
Qed.

(** C9, as the code has it.  Whenever [flight start] schedules the delayed
    action, the action holds the message the open announcement returned, the
    channel that announcement went to, the flight number, departure and
    arrival extracted from the description of the event read, and a lock
    time, aware of its offset, 15 minutes after the start of that event; and
    nothing else is scheduled in that run.  The action then makes its calls
    in this order: it reads the clock, waits for the difference to the lock
    time, attempts to delete that open message, and publishes in that channel
    the closed announcement built from those three fields.  When the wait
    completes, and the deletion succeeds or fails with a
    [discord.HTTPException] (such as [NotFound] for a message already
    deleted), the failure is not propagated and the announcement is sent. *)
Theorem closed_task_order (self : gmap string value) (o : oracle) (ctx : Context)
  (link : option string) (pre post : trace) (c : Closure) (u : unit) :
  fst (run o (flight_start self ctx link)) = (pre ++ Ev (CreateTask c) u :: post)%list ->
  (exists url h ev now idv minutes loc d start,
     pre = [Ev (HttpGet url h) (Ok 200);
            Ev JsonEvent (Ok ev);
            Ev NowUtc now;
            Ev (GetChannel idv) (Some (c_chan c));
            Ev (ChannelSend (c_chan c)
                  (Text (open_message (c_departure c) (c_arrival c) (c_flight_number c)
                           minutes (link_text loc))))
               (Ok (c_msg c))]
     /\ description_of ev = Ok d
     /\ extract d = Some (c_flight_number c, c_departure c, c_arrival c)
     /\ read_iso (Str.replace_char "Z" "+00:00" (ev_scheduled_start_time ev)) = Some start
     /\ Datetime.add start (Datetime.minutes 15) = Ok (c_lock_time c))
  /\ existsb is_create_task post = false
  /\ exists off,
       Datetime.tz (c_lock_time c) = Some off
       /\ forall o' : oracle,
            let now' := o' Z 0%nat NowUtc in
            let delay := Datetime.total_seconds
                           (Datetime.wall (c_lock_time c) - off - (now' - 0)) in
            let closed := ChannelSend (c_chan c)
                            (Text (closed_message (c_departure c) (c_flight_number c)
                                     (c_arrival c))) in
            o' _ 1%nat (Sleep delay) = Ok tt ->
            passed_over (o' _ 2%nat (MessageDelete (c_msg c))) ->
            run o' (send_checkin_closed c)
            = ([Ev NowUtc now';
                Ev (Sleep delay) (Ok tt);
                Ev (MessageDelete (c_msg c)) (o' _ 2%nat (MessageDelete (c_msg c)));
                Ev closed (o' _ 3%nat closed)],
               result_of (x ← o' _ 3%nat closed; mret tt)).
Proof.
  intros Htr.
  destruct (holds_run _ _ _ (flight_start_protocol self ctx link) o) as [HP _].
  destruct (HP pre (Ev (CreateTask c) u) post Htr)
    as [(url & h & ev & now & idv & minutes & loc & d & start
         & Hpre & Hloc & Hd & Hx & Hstart & Hlock & Hmin) _].
  apply rev_eq_inv in Hpre. cbn in Hpre.
  split; [eauto 15 |]. split.
  { apply (no_second_task (fst (run o (flight_start self ctx link))) pre post c u);
      [| exact Htr].
    intros pre' e post' E He. by apply (HP pre' e post' E). }
  destruct (minutes_until_lock_aware _ _ _ Hmin) as [off Hoff].
  exists off. split; [exact Hoff |].
  intros o'. apply send_checkin_closed_passes. exact Hoff.
Qed.

(** C4, as the code has it.  An open announcement that was delivered is
    followed by the scheduling of the delayed action, whatever the lock
    time: when the lock time is at or before the clock reading of
    [flight start], the announcement gives 0 minutes and the action is
    scheduled all the same, for the message and the channel of that
    announcement.  When the lock time is at or before the clock reading of
    the delayed action, the delay handed to [asyncio.sleep] is the difference
    itself, zero or negative and not clamped by the plugin (it is negative
    when the lock time is past); once the wait returns, the deletion of the
    open message is attempted and the closed announcement is sent as for any
    other lock time: the action is not skipped. *)
Theorem past_lock_is_not_skipped (self : gmap string value) (o : oracle) (ctx : Context)
  (link : option string) (pre post : trace) (chan : channel) (m : content)
  (msg : message) :
  fst (run o (flight_start self ctx link))
  = (pre ++ Ev (ChannelSend chan m) (Ok msg) :: post)%list ->
  existsb is_create_task pre = false ->
  exists c u rest now minutes off loc,
    post = Ev (CreateTask c) u :: rest
    /\ c_msg c = msg
    /\ c_chan c = chan
    /\ Datetime.tz (c_lock_time c) = Some off
    /\ In (Ev NowUtc now) pre
    /\ minutes_until_lock (c_lock_time c) (Datetime.aware_utc now) = Ok minutes
    /\ m = Text (open_message (c_departure c) (c_arrival c) (c_flight_number c)
                   minutes loc)
    /\ (Datetime.wall (c_lock_time c) - off <= now -> minutes = 0)
    /\ forall o' : oracle,
         let now' := o' Z 0%nat NowUtc in
         let td := Datetime.wall (c_lock_time c) - off - (now' - 0) in
         let delay := Datetime.total_seconds td in
         let closed := ChannelSend chan
                         (Text (closed_message (c_departure c) (c_flight_number c)
                                  (c_arrival c))) in
         Datetime.wall (c_lock_time c) - off <= now' ->
         o' _ 1%nat (Sleep delay) = Ok tt ->
         passed_over (o' _ 2%nat (MessageDelete msg)) ->
         Float64.le0 delay = true
         /\ (td < 0 -> Float64.fm delay < 0)
         /\ run o' (send_checkin_closed c)
            = ([Ev NowUtc now';
                Ev (Sleep delay) (Ok tt);
                Ev (MessageDelete msg) (o' _ 2%nat (MessageDelete msg));
                Ev closed (o' _ 3%nat closed)],
               result_of (x ← o' _ 3%nat closed; mret tt)).
Proof.
  intros Htr Hfirst.
  destruct (holds_run _ _ _ (flight_start_protocol self ctx link) o) as [HP HQ].
  destruct post as [| e1 post].
  { exfalso. rewrite Htr, rev_app_distr in HQ. cbn in HQ.
    rewrite existsb_rev, Hfirst in HQ. exact HQ. }
  pose proof (HP (pre ++ [Ev (ChannelSend chan m) (Ok msg)])%list e1 post) as H1.
  rewrite Htr, <- app_assoc in H1. specialize (H1 eq_refl).
  destruct H1 as (H1 & H2 & _). rewrite rev_app_distr in H2. cbn in H2.
  rewrite existsb_rev, Hfirst in H2. destruct H2 as (c & u & ->).
  destruct H1 as (url & h & ev & now & idv & minutes & loc & d & start
                  & Hpre & Hloc & Hd & Hx & Hstart & Hlock & Hmin).
  rewrite rev_app_distr in Hpre. cbn in Hpre.
  pose proof (f_equal (fun l : trace =>
                         match l with
                         | Ev (ChannelSend ch m0) (Ok g) :: _ => Some (ch, m0, g)
                         | _ => None
                         end) Hpre) as Hhd.
  cbn beta iota in Hhd. injection Hhd as Hchan Hm Hmsg.
  apply (f_equal (@tl entry)) in Hpre. cbn [tl] in Hpre.
  apply rev_eq_inv in Hpre. cbn in Hpre.
  destruct (minutes_until_lock_aware _ _ _ Hmin) as [off Hoff].
  exists c, u, post, now, minutes, off, (link_text loc).
  split; [reflexivity |]. split; [congruence |]. split; [congruence |].
  split; [exact Hoff |].
  split; [rewrite Hpre; cbn; tauto |].
  split; [exact Hmin |]. split; [congruence |].
  split.
  { intros Hle. rewrite (minutes_until_lock_passed _ off now Hoff Hle) in Hmin.
    by injection Hmin. }
  intros o' now' td delay closed Hpast Hsleep Hdel.
  split; [apply rn_div_nonpos; [reflexivity | subst td; lia] |].
  split; [intros Hneg; apply rn_div_neg; [reflexivity | exact Hneg] |].
  subst closed delay td now'. subst chan msg.
  apply (send_checkin_closed_passes c o' off Hoff); assumption.
Qed.

End Notifier.

Section NotifierCases.
Import Effects Cog Observe May History Notification.
#[local] Existing Instance Samples.cpython_3_10.

Lemma parse_failure_is_reported_witness :
  exists url h a,
    run (Samples.serving Samples.edited 0)
      (flight_start Samples.configured Samples.staff (Some "https://discord.com/events/1/2"))
    = ([Ev (HttpGet url h) (Ok 200);
        Ev JsonEvent (Ok Samples.edited);
        Ev (CtxReply (error_embed "Failed to parse event description for flight info.")) a],
       result_of a)
    /\ Forall (fun e => is_channel_send e = false /\ is_create_task e = false)
         (fst (run (Samples.serving Samples.edited 0)
                 (flight_start Samples.configured Samples.staff
                    (Some "https://discord.com/events/1/2")))).
Proof.
  apply (parse_failure_is_reported Samples.configured (Samples.serving Samples.edited 0)
           Samples.staff (Some "https://discord.com/events/1/2") Samples.edited
           (Some "https://www.roblox.com/games/1")
           "Flight EA301 from Edinburgh to Madeira").
  - eexists. split; [right; left; reflexivity | reflexivity].
  - reflexivity.
  - reflexivity.
  - vm_compute. reflexivity.
Defined.

(** C8 as stated fails for an event created without a description: the key
    holds [null], which matches no pattern; the command raises
    [AttributeError] when it strips it, and the invoker is told nothing. *)
Lemma parse_failure_counterexample :
  let o := Samples.serving Samples.undescribed 0 in
  ev_description Samples.undescribed = Null
  /\ description_of Samples.undescribed = Exc (AttributeError "NoneType" "strip")
  /\ run o (flight_start Samples.configured Samples.staff
              (Some "https://discord.com/events/1/2"))
     = ([Ev (HttpGet
               "https://discord.com/api/v10/guilds/1288926604415733854/scheduled-events/2"
               [("Authorization", "Bot token")]) (Ok 200);
         Ev JsonEvent (Ok Samples.undescribed)],
        Raised (AttributeError "NoneType" "strip"))
  /\ exn_str (AttributeError "NoneType" "strip")
     = "'NoneType' object has no attribute 'strip'".
Proof. vm_compute. repeat split. Qed.

Lemma closed_task_order_witness :
  let o := Samples.serving Samples.scheduled Samples.today in
  let link := Some "https://discord.com/events/1/2" in
  let tr := fst (run o (flight_start Samples.configured Samples.staff link)) in
  let c := Samples.closing in
  tr = (firstn 5 tr ++ Ev (CreateTask c) tt :: skipn 6 tr)%list
  /\ (exists url h ev now idv minutes loc d start,
        firstn 5 tr
        = [Ev (HttpGet url h) (Ok 200);
           Ev JsonEvent (Ok ev);
           Ev NowUtc now;
           Ev (GetChannel idv) (Some (c_chan c));
           Ev (ChannelSend (c_chan c)
                 (Text (open_message (c_departure c) (c_arrival c) (c_flight_number c)
                          minutes (link_text loc))))
              (Ok (c_msg c))]
        /\ description_of ev = Ok d
        /\ extract d = Some (c_flight_number c, c_departure c, c_arrival c)
        /\ read_iso (Str.replace_char "Z" "+00:00" (ev_scheduled_start_time ev))
           = Some start
        /\ Datetime.add start (Datetime.minutes 15) = Ok (c_lock_time c))
  /\ existsb is_create_task (skipn 6 tr) = false
  /\ exists off,
       Datetime.tz (c_lock_time c) = Some off
       /\ forall o' : oracle,
            let now' := o' Z 0%nat NowUtc in
            let delay := Datetime.total_seconds
                           (Datetime.wall (c_lock_time c) - off - (now' - 0)) in
            let closed := ChannelSend (c_chan c)
                            (Text (closed_message (c_departure c) (c_flight_number c)
                                     (c_arrival c))) in
            o' _ 1%nat (Sleep delay) = Ok tt ->
            passed_over (o' _ 2%nat (MessageDelete (c_msg c))) ->
            run o' (send_checkin_closed c)
            = ([Ev NowUtc now';
                Ev (Sleep delay) (Ok tt);
                Ev (MessageDelete (c_msg c)) (o' _ 2%nat (MessageDelete (c_msg c)));
                Ev closed (o' _ 3%nat closed)],
               result_of (x ← o' _ 3%nat closed; mret tt)).
Proof.
  cbv zeta. split; [vm_compute; reflexivity |].
  apply (closed_task_order Samples.configured
           (Samples.serving Samples.scheduled Samples.today) Samples.staff
           (Some "https://discord.com/events/1/2") _ _ Samples.closing tt).
  vm_compute. reflexivity.
Defined.

(** C9 as stated fails for a deletion error that is not a
    [discord.HTTPException]: when the connection drops during the deletion,
    the error leaves the delayed action and nothing is announced. *)
Lemma closed_task_counterexample :
  let o := Samples.connection_lost Samples.today in
  snd (run o (send_checkin_closed Samples.closing))
  = Raised (OSError "Connection reset by peer")
  /\ map is_channel_send (fst (run o (send_checkin_closed Samples.closing)))
     = [false; false; false]
  /\ nth 2 (map (fun e => match e with
                          | Ev (MessageDelete m) (Exc x) => Some (m, x)
                          | _ => None
                          end)
              (fst (run o (send_checkin_closed Samples.closing)))) None
     = Some (99, OSError "Connection reset by peer").
Proof. vm_compute. repeat split. Qed.

Lemma past_lock_is_not_skipped_witness :
  let o := Samples.serving Samples.scheduled 64029053701000000 in
  let link := Some "https://discord.com/events/1/2" in
  let tr := fst (run o (flight_start Samples.configured Samples.staff link)) in
  let m := Text (open_message "Edinburgh" "Madeira" "EA301" 0
                   "https://www.roblox.com/games/1") in
  (tr = (firstn 4 tr ++ Ev (ChannelSend 7 m) (Ok 99) :: skipn 5 tr)%list
   /\ existsb is_create_task (firstn 4 tr) = false)
  /\ exists c u rest now minutes off loc,
       skipn 5 tr = Ev (CreateTask c) u :: rest
       /\ c_msg c = 99
       /\ c_chan c = 7
       /\ Datetime.tz (c_lock_time c) = Some off
       /\ In (Ev NowUtc now) (firstn 4 tr)
       /\ minutes_until_lock (c_lock_time c) (Datetime.aware_utc now) = Ok minutes
       /\ m = Text (open_message (c_departure c) (c_arrival c) (c_flight_number c)
                      minutes loc)
       /\ (Datetime.wall (c_lock_time c) - off <= now -> minutes = 0)
       /\ forall o' : oracle,
            let now' := o' Z 0%nat NowUtc in
            let td := Datetime.wall (c_lock_time c) - off - (now' - 0) in
            let delay := Datetime.total_seconds td in
            let closed := ChannelSend 7
                            (Text (closed_message (c_departure c) (c_flight_number c)
                                     (c_arrival c))) in
            Datetime.wall (c_lock_time c) - off <= now' ->
            o' _ 1%nat (Sleep delay) = Ok tt ->
            passed_over (o' _ 2%nat (MessageDelete 99)) ->
            Float64.le0 delay = true
            /\ (td < 0 -> Float64.fm delay < 0)
            /\ run o' (send_checkin_closed c)
               = ([Ev NowUtc now';
                   Ev (Sleep delay) (Ok tt);
                   Ev (MessageDelete 99) (o' _ 2%nat (MessageDelete 99));
                   Ev closed (o' _ 3%nat closed)],
                  result_of (x ← o' _ 3%nat closed; mret tt)).
Proof.
  cbv zeta. split; [split; vm_compute; reflexivity |].
  apply (past_lock_is_not_skipped Samples.configured
           (Samples.serving Samples.scheduled 64029053701000000) Samples.staff
           (Some "https://discord.com/events/1/2")).
  - vm_compute. reflexivity.
  - vm_compute. reflexivity.
Defined.

(** C4 as stated fails: [flight start], invoked one second after the lock
    time, schedules the delayed action, and the delay that action hands to
    [asyncio.sleep] is -1.0, not 0. *)
Lemma past_lock_counterexample :
  let o := Samples.serving Samples.scheduled 64029053701000000 in
  let tr := fst (run o (flight_start Samples.configured Samples.staff
                          (Some "https://discord.com/events/1/2"))) in
  let given := nth 1 (map slept (fst (run o (send_checkin_closed Samples.closing)))) None in
  nth 5 (map created tr) None = Some Samples.closing
  /\ given = Some (Float64.F64 (- 4503599627370496) (- 52))
  /\ Float64.eq_int (Float64.F64 (- 4503599627370496) (- 52)) (- 1) = true
  /\ Float64.eq_int (Float64.F64 (- 4503599627370496) (- 52)) 0 = false.
Proof. vm_compute. repeat split. Qed.

End NotifierCases.
(** ** The extraction pattern *)

Section Extraction.
Import Regex Cog RoundTrip.

Lemma span_empty_run (c : cls) (k : string -> option (list string)) (s rest : string) :
  span c s = (EmptyString, rest) -> rest = s /\ greedy c k s = None.
Proof.
  destruct s as [| ch s]; cbn [span greedy].
  - intros [= <-]. auto.
  - destruct (cls_match c ch); [| intros [= <-]; auto].
    destruct (span c s). discriminate.
Qed.

(** A greedy loop takes the longest run when the rest of the pattern matches
    right after it. *)
Lemma greedy_span (c : cls) (k : string -> option (list string)) (g : list string) :
  forall s run rest,
    span c s = (run, rest) -> run <> EmptyString -> k rest = Some g ->
    greedy c k s = Some g.
Proof.
  induction s as [| ch s IH]; intros run rest; cbn [span greedy].
  - intros [= <- <-] H. contradiction.
  - destruct (cls_match c ch); [| intros [= <- <-] H; contradiction].
    destruct (span c s) as [run' rest'] eqn:E. intros [= <- <-] _ Hk.
    destruct run' as [| ch' run'].
    + destruct (span_empty_run c k s rest' E) as [-> ->]. exact Hk.
    + rewrite (IH _ _ eq_refl); [reflexivity | discriminate | exact Hk].
Qed.

(** A lazy group takes [g] when the rest of the pattern matches after [g]
    and after no shorter non-empty part of it. *)
Lemma lazy_shortest (k : string -> option (list string)) (rest : string)
  (r : list string) :
  k rest = Some r ->
  forall g acc,
    g <> EmptyString ->
    (forall g1 g2, g = g1 +:+ g2 -> g1 <> EmptyString -> g2 <> EmptyString ->
                   k (g2 +:+ rest) = None) ->
    lazy AnyChar k acc (g +:+ rest) = Some ((acc +:+ g) :: r).
Proof.
  intros Hk. induction g as [| ch g IH]; intros acc Hne Hshort; [contradiction |].
  destruct g as [| ch' g].
  - rewrite append_cons, append_nil_l. cbn [lazy cls_match]. by rewrite Hk.
  - rewrite append_cons. cbn [lazy cls_match].
    rewrite (Hshort (String ch EmptyString) (String ch' g)); try discriminate;
      [| reflexivity].
    rewrite IH; [| discriminate |].
    + f_equal. f_equal. clear.
      induction acc as [| a acc IHa]; [reflexivity |].
      rewrite !append_cons. by rewrite IHa.
    + intros g1 g2 Hg Hg1 Hg2.
      apply (Hshort (String ch g1) g2);
        [rewrite append_cons; by rewrite Hg | discriminate | exact Hg2].
Qed.

(** The closing marker of a field, two asterisks and a character [d] that
    is not one, does not begin inside a plain field nor at its last
    character. *)
Lemma marker_not_inside (d : ascii) (m g2 tail : string) :
  d <> "*"%char ->
  g2 <> EmptyString ->
  Str.contains "**" g2 = false ->
  lit (String "*" (String "*" (String d m)))
      (g2 +:+ String "*" (String "*" (String d tail))) = None.
Proof.
  intros Hd Hne Hno. destruct g2 as [| c g2]; [contradiction |].
  rewrite append_cons. cbn [lit].
  destruct (Ascii.eqb_spec "*" c) as [<- | Hc]; [| reflexivity].
  destruct g2 as [| c2 g2].
  - rewrite append_nil_l. cbn [lit]. rewrite Ascii.eqb_refl.
    destruct (Ascii.eqb_spec d "*"); [contradiction | reflexivity].
  - rewrite append_cons. cbn [lit].
    destruct (Ascii.eqb_spec "*" c2) as [<- | Hc2]; [| reflexivity].
    cbn in Hno. discriminate.
Qed.

Lemma search_here (r : regex) (s : string) (g : list string) :
  match_here r s = Some g -> search r s = Some g.
Proof. intros H. destruct s; cbn [search]; by rewrite H. Qed.

Lemma match_lit (p : string) (r : regex) (s s' : string) (g : list string) :
  lit p s = Some s' -> match_here r s' = Some g -> match_here (Lit p :: r) s = Some g.
Proof. intros Hl Hr. cbn [match_here]. by rewrite Hl. Qed.

Lemma match_plus (c : cls) (r : regex) (s run rest : string) (g : list string) :
  span c s = (run, rest) -> run <> EmptyString -> match_here r rest = Some g ->
  match_here (Plus c :: r) s = Some g.
Proof. intros Hs Hne Hr. cbn [match_here]. eapply greedy_span; eassumption. Qed.

(** A group followed by its closing marker reads a plain field whole. *)
Lemma match_field (d : ascii) (m : string) (r : regex) (g tail : string)
  (gs : list string) :
  d <> "*"%char ->
  plain g ->
  match_here (Lit (String "*" (String "*" (String d m))) :: r)
    (String "*" (String "*" (String d tail))) = Some gs ->
  match_here (GroupLazy AnyChar :: Lit (String "*" (String "*" (String d m))) :: r)
    (g +:+ String "*" (String "*" (String d tail))) = Some (g :: gs).
Proof.
  intros Hd (Hne & _ & Hno) Hrest.
  change (lazy AnyChar
            (match_here (Lit (String "*" (String "*" (String d m))) :: r))
            EmptyString (g +:+ String "*" (String "*" (String d tail)))
          = Some ((EmptyString +:+ g) :: gs)).
  apply lazy_shortest; [exact Hrest | exact Hne |].
  intros g1 g2 -> Hg1 Hg2. cbn [match_here].
  rewrite marker_not_inside; [reflexivity | exact Hd | exact Hg2 |].
  eapply contains_suffix, Hno.
Qed.

Lemma template_stripped (flight_number departure arrival aircraft_type : string) :
  Str.strip (creation_template flight_number departure arrival aircraft_type)
  = creation_template flight_number departure arrival aircraft_type.
Proof.
  unfold Str.strip, creation_template.
  match goal with
  | |- Str.rstrip_by _ (Str.lstrip_by _ ?t) = _ =>
      change (Str.lstrip_by Str.isspace t) with t
  end.
  repeat (apply rstrip_by_append;
          [repeat apply append_nonempty_r; discriminate |]).
  reflexivity.
Qed.

Lemma template_matches (flight_number departure arrival aircraft_type : string) :
  plain flight_number -> plain departure -> plain arrival ->
  match_here pattern
    (creation_template flight_number departure arrival aircraft_type)
  = Some [flight_number; departure; arrival].
Proof.
  intros Hf Hd Ha. unfold pattern, creation_template.
  eapply match_lit; [reflexivity |].
  eapply match_plus; [reflexivity | discriminate |].
  eapply match_lit; [reflexivity |].
  eapply match_plus; [reflexivity | discriminate |].
  eapply match_lit; [reflexivity |].
  eapply match_plus; [reflexivity | discriminate |].
  eapply match_lit; [reflexivity |].
  apply (match_field "," _ _ flight_number); [discriminate | exact Hf |].
  eapply match_lit; [reflexivity |].
  eapply match_plus; [reflexivity | discriminate |].
  eapply match_lit; [reflexivity |].
  apply (match_field " " _ _ departure); [discriminate | exact Hd |].
  eapply match_lit; [reflexivity |].
  eapply match_plus; [reflexivity | discriminate |].
  eapply match_lit; [reflexivity |].
  apply (match_field " " _ _ arrival); [discriminate | exact Ha |].
  eapply match_lit; [reflexivity |].
  reflexivity.
Qed.

(** C5, as the code has it.  For plain fields (not empty, no white space at
    either end, no two asterisks in a row) and any aircraft type, the
    description written by [flight create] matches the pattern of
    [flight start], and the three fields read back are the flight number,
    the departure and the arrival that were written. *)
Theorem template_reads_back
  (flight_number departure arrival aircraft_type : string) :
  plain flight_number -> plain departure -> plain arrival ->
  read_back flight_number departure arrival aircraft_type
  = Some (flight_number, departure, arrival).
Proof.
  intros Hf Hd Ha. unfold read_back, extract.
  rewrite template_stripped.
  rewrite (search_here _ _ _ (template_matches _ _ _ aircraft_type Hf Hd Ha)).
  destruct Hf as (_ & -> & _), Hd as (_ & -> & _), Ha as (_ & -> & _).
  reflexivity.
Qed.

Lemma template_reads_back_witness :
  read_back "EA301" "Edinburgh" "Madeira" "A320neo"
  = Some ("EA301", "Edinburgh", "Madeira").
Proof.
  apply (template_reads_back "EA301" "Edinburgh" "Madeira" "A320neo");
    (split; [discriminate | split; reflexivity]).
Defined.

(** C5 as stated fails.  An empty flight number (the content of a message
    that only carries an attachment) leaves nothing for the first group to
    hold, so the description does not match; and a departure in which the
    marker of the next field occurs is cut at that marker. *)
Lemma template_counterexample :
  read_back "" "Edinburgh" "Madeira" "A320neo" = None
  /\ read_back "EA301" "Edinburgh** to **Lisbon" "Madeira" "A320neo"
     = Some ("EA301", "Edinburgh", "Lisbon** to **Madeira")
  /\ read_back "EA301" " Edinburgh" "Madeira" "A320neo"
     = Some ("EA301", "Edinburgh", "Madeira").
Proof. vm_compute. repeat split. Qed.

End Extraction.

(** ** Creating a flight *)

Section Creation.
Import Effects Cog Observe May Request.

Lemma ask_emits (P : entry -> Prop) (self : gmap string value) (prompt : content) :
  (forall m x, P (Ev (CtxSend m) x)) ->
  (forall t x, P (Ev (WaitForMessage t) x)) ->
  emits_only P (ask self prompt).
Proof.
  intros Hsend Hwait. unfold ask.
  apply emits_only_bind; [apply emits_only_await; auto | intros _].
  apply emits_only_try.
  - repeat emits_step; auto.
  - intros e q H. destruct e; try discriminate. injection H as <-.
    constructor; [auto | intros [u | ex]; constructor].
Qed.

Lemma utcfromtimestamp_whole (t : Z) (d : Datetime.datetime) :
  Datetime.utcfromtimestamp t = Ok d ->
  Datetime.tz d = None /\ Datetime.in_range (Datetime.wall d) = true
  /\ Datetime.wall d mod 1000000 = 0.
Proof.
  unfold Datetime.utcfromtimestamp. cbv zeta.
  destruct (Datetime.in_range _) eqn:E; intros H.
  2: { repeat match type of H with
              | context [if ?b then _ else _] => destruct b
              end; discriminate. }
  inversion H. cbn.
  split; [reflexivity |]. split; [exact E |].
  unfold Datetime.epoch_wall, Datetime.us_per_day, Datetime.us_per_second. divlia.
Qed.

Lemma add_in_range (d d' : Datetime.datetime) (td : Datetime.timedelta) :
  Datetime.add d td = Ok d' -> Datetime.in_range (Datetime.wall d') = true.
Proof.
  unfold Datetime.add. cbv zeta.
  destruct (Datetime.in_range _) eqn:E; intros H; inversion H. exact E.
Qed.

Lemma flight_create_payload (self : gmap string value) (ctx : Context) :
  emits_only (fun e => forall p, posted e = Some p -> start_and_end p)
    (flight_create self ctx).
Proof.
  unfold flight_create, lacks_role, get_channel.
  apply emits_only_try.
  - repeat first [ apply emits_only_bind;
                   [apply ask_emits; intros ? ? ? ?; discriminate | intros ?]
                 | emits_step ];
      intros p Hp; try discriminate.
    injection Hp as <-. unfold start_and_end. cbn.
    match goal with
    | Hi : Str.int ?raw = Some ?t, Hu : Datetime.utcfromtimestamp ?t = Ok ?s,
      Ha : Datetime.add ?s _ = Ok ?e |- _ =>
        exists raw, t, s, e;
        pose proof (add_wall _ _ _ Ha) as He;
        pose proof (add_in_range _ _ _ Ha) as Hre;
        destruct (utcfromtimestamp_whole _ _ Hu) as (Htz & Hrs & Hws)
    end.
    match goal with
    | Hu : Datetime.utcfromtimestamp _ = Ok ?s |- _ => destruct s as [ws tzs]
    end.
    cbn in Htz, Hrs, Hws. subst tzs.
    subst. cbn [Datetime.wall Datetime.tz] in *.
    repeat split; try assumption; try reflexivity.
    + apply (fromisoformat_isoformat ws Hrs Hws).
    + apply (fromisoformat_isoformat (ws + Datetime.minutes 45) Hre).
      unfold Datetime.minutes, Datetime.us_per_minute, Datetime.us_per_second. divlia.
  - intros e q H.
    destruct e; cbn in H; injection H as <-;
      repeat emits_step; intros p Hp; discriminate.
Qed.

(** C10.  Every creation request [flight create] submits carries, as its
    start, the text of the instant [utcfromtimestamp(int(raw))] for the
    answer [raw] to the time prompt and, as its end, the text of that
    instant plus 45 minutes (2 700 000 000 microseconds); read back, the two
    texts are 45 minutes apart. *)
Theorem created_event_lasts_45_minutes (self : gmap string value) (o : oracle)
  (ctx : Context) (e : entry) (p : Payload) :
  In e (fst (run o (flight_create self ctx))) ->
  posted e = Some p ->
  exists raw t start end_,
    Str.int raw = Some t
    /\ Datetime.utcfromtimestamp t = Ok start
    /\ Datetime.add start (Datetime.minutes 45) = Ok end_
    /\ Datetime.wall end_ = Datetime.wall start + 45 * 60 * 1000000
    /\ p_scheduled_start_time p = Datetime.isoformat start
    /\ p_scheduled_end_time p = Datetime.isoformat end_
    /\ Datetime.fromisoformat (p_scheduled_start_time p) = Some start
    /\ Datetime.fromisoformat (p_scheduled_end_time p) = Some end_.
Proof.
  intros Hin Hp.
  pose proof (emits_only_exec _ _ (flight_create_payload self ctx) o 0%nat) as HF.
  rewrite Forall_forall in HF. apply (HF e); [| exact Hp].
  by apply list_elem_of_In.
Qed.

Lemma created_event_lasts_45_minutes_witness :
  exists raw t start end_,
    Str.int raw = Some t
    /\ Datetime.utcfromtimestamp t = Ok start
    /\ Datetime.add start (Datetime.minutes 45) = Ok end_
    /\ Datetime.wall end_ = Datetime.wall start + 45 * 60 * 1000000
    /\ p_scheduled_start_time Samples.submitted = Datetime.isoformat start
    /\ p_scheduled_end_time Samples.submitted = Datetime.isoformat end_
    /\ Datetime.fromisoformat (p_scheduled_start_time Samples.submitted) = Some start
    /\ Datetime.fromisoformat (p_scheduled_end_time Samples.submitted) = Some end_.
Proof.
  apply (created_event_lasts_45_minutes Samples.configured Samples.answering Samples.staff
           (nth 12 (fst (run Samples.answering
                           (flight_create Samples.configured Samples.staff)))
              (Ev (LogWarning EmptyString) tt))
           Samples.submitted).
  - vm_compute. do 12 right. left. reflexivity.
  - vm_compute. reflexivity.
Defined.

End Creation.

(** ** The scenarios of the specification *)

Section Scenarios.
Import Effects Cog Observe.
#[local] Existing Instance Samples.cpython_3_10.

(** A tick with three upcoming items and one past item publishes exactly two
    fields, the two nearest items, nearest first. *)
Example scenario_refresher :
  map patched (fst (run Samples.busy_evening (update_webhook Samples.configured)))
  = [None; None; None; None; None; None;
     Some [ {| d_title := "Upcoming Flights";
               d_description := None;
               d_fields := Some [("EA310", Some "desc"); ("EA320", Some "desc")];
               d_color := 15065566;
               d_footer := "Updates every 5 min" |} ];
     None].
Proof. vm_compute. reflexivity. Qed.

(** [flight start] at the start of the event: the open announcement gives
    15 minutes, one delayed action is scheduled for the lock time, and the
    invoker is answered. *)
Example scenario_start :
  let o := Samples.serving Samples.scheduled Samples.new_year in
  let tr := fst (run o (flight_start Samples.configured Samples.staff
                          (Some "https://discord.com/events/1288926604415733854/77/"))) in
  map fetched_status tr
  = [Some 200; None; None; None; None; None; None; None; None]
  /\ nth 4 tr (Ev NowUtc 0)
     = Ev (ChannelSend 7
             (Text (open_message "Edinburgh" "Madeira" "EA301" 15
                      "https://www.roblox.com/games/1")))
          (Ok 99)
  /\ map created tr
     = [None; None; None; None; None; Some Samples.closing; None; None; None]
  /\ snd (run o (flight_start Samples.configured Samples.staff
                   (Some "https://discord.com/events/1288926604415733854/77/")))
     = Returned tt.
Proof. vm_compute. repeat split. Qed.

(** Twenty minutes before the start of the event the lock time is 35 minutes
    away: the offset counts from the start, not from the invocation. *)
Example scenario_start_early :
  minutes_until_lock Samples.lock_2030
    (Datetime.aware_utc (Samples.new_year - 20 * 60 * 1000000))
  = Ok 35.
Proof. vm_compute. reflexivity. Qed.

(** One hour after the lock time the announcement gives 0 minutes and the
    delayed action is scheduled all the same. *)
Example scenario_start_late :
  let o := Samples.serving Samples.scheduled (Samples.new_year + 75 * 60 * 1000000) in
  let tr := fst (run o (flight_start Samples.configured Samples.staff
                          (Some "https://discord.com/events/1288926604415733854/77"))) in
  nth 4 tr (Ev NowUtc 0)
  = Ev (ChannelSend 7
          (Text (open_message "Edinburgh" "Madeira" "EA301" 0
                   "https://www.roblox.com/games/1")))
       (Ok 99)
  /\ map created tr
     = [None; None; None; None; None; Some Samples.closing; None; None; None].
Proof. vm_compute. repeat split. Qed.

(** The delayed action, started 15 minutes before the lock time: it waits
    900 seconds, deletes the open message and announces the closing. *)
Example scenario_closed :
  let o := Samples.serving Samples.scheduled Samples.new_year in
  run o (send_checkin_closed Samples.closing)
  = ([Ev NowUtc Samples.new_year;
      Ev (Sleep (Float64.F64 7916483719987200 (- 43))) (Ok tt);
      Ev (MessageDelete 99) (Ok tt);
      Ev (ChannelSend 7 (Text (closed_message "Edinburgh" "EA301" "Madeira"))) (Ok 99)],
     Returned tt)
  /\ Float64.eq_int (Float64.F64 7916483719987200 (- 43)) 900 = true.
Proof. vm_compute. repeat split. Qed.

End Scenarios.
